(** * The credential authenticator of earl (software/earl/authenticator.go)

    A shallow embedding of [FileBasedAuthenticator]: the credential hash,
    the in-memory table of users guarded by a mutex, the lazy reload from
    the user file, sponsor-gated provisioning and the time-of-day policy. *)

From Stdlib Require Import ZArith Ascii String List Lia Bool.
From stdpp Require Import base option list strings gmap.

Local Open Scope Z_scope.

(** ** crypto/md5 and encoding/hex

    [hashAuthCode] relies on two packages of the Go standard library.
    They are modelled after RFC 1321 and the hex package: bytes and 32-bit
    words are [Z] with the wrap-around written out. *)

Module MD5.

Definition mask32 : Z := 0xffffffff.

Definition add32 (x y : Z) : Z := Z.land (x + y) mask32.

Definition not32 (x : Z) : Z := Z.lxor x mask32.

Definition rotl32 (x : Z) (s : Z) : Z :=
  Z.land (Z.lor (Z.shiftl x s) (Z.shiftr x (32 - s))) mask32.

(** The per-round additive constants, floor(2^32 * |sin(i+1)|). *)
Definition K : list Z :=
  [ 0xd76aa478; 0xe8c7b756; 0x242070db; 0xc1bdceee;
    0xf57c0faf; 0x4787c62a; 0xa8304613; 0xfd469501;
    0x698098d8; 0x8b44f7af; 0xffff5bb1; 0x895cd7be;
    0x6b901122; 0xfd987193; 0xa679438e; 0x49b40821;
    0xf61e2562; 0xc040b340; 0x265e5a51; 0xe9b6c7aa;
    0xd62f105d; 0x02441453; 0xd8a1e681; 0xe7d3fbc8;
    0x21e1cde6; 0xc33707d6; 0xf4d50d87; 0x455a14ed;
    0xa9e3e905; 0xfcefa3f8; 0x676f02d9; 0x8d2a4c8a;
    0xfffa3942; 0x8771f681; 0x6d9d6122; 0xfde5380c;
    0xa4beea44; 0x4bdecfa9; 0xf6bb4b60; 0xbebfbc70;
    0x289b7ec6; 0xeaa127fa; 0xd4ef3085; 0x04881d05;
    0xd9d4d039; 0xe6db99e5; 0x1fa27cf8; 0xc4ac5665;
    0xf4292244; 0x432aff97; 0xab9423a7; 0xfc93a039;
    0x655b59c3; 0x8f0ccc92; 0xffeff47d; 0x85845dd1;
    0x6fa87e4f; 0xfe2ce6e0; 0xa3014314; 0x4e0811a1;
    0xf7537e82; 0xbd3af235; 0x2ad7d2bb; 0xeb86d391 ].

(** The per-round left-rotation amounts. *)
Definition shifts : list Z :=
  [ 7; 12; 17; 22; 7; 12; 17; 22; 7; 12; 17; 22; 7; 12; 17; 22;
    5; 9; 14; 20; 5; 9; 14; 20; 5; 9; 14; 20; 5; 9; 14; 20;
    4; 11; 16; 23; 4; 11; 16; 23; 4; 11; 16; 23; 4; 11; 16; 23;
    6; 10; 15; 21; 6; 10; 15; 21; 6; 10; 15; 21; 6; 10; 15; 21 ].

(** The four chaining words A, B, C, D. *)
Record digest := Digest { dA : Z; dB : Z; dC : Z; dD : Z }.

Definition init : digest :=
  Digest 0x67452301 0xefcdab89 0x98badcfe 0x10325476.

(** Little-endian packing of four bytes into a word and back. *)
Definition word_of_bytes (bs : list Z) : Z :=
  List.nth 0 bs 0 + Z.shiftl (List.nth 1 bs 0) 8
  + Z.shiftl (List.nth 2 bs 0) 16 + Z.shiftl (List.nth 3 bs 0) 24.

Definition bytes_of_word (w : Z) : list Z :=
  [ Z.land w 255; Z.land (Z.shiftr w 8) 255;
    Z.land (Z.shiftr w 16) 255; Z.land (Z.shiftr w 24) 255 ].

Fixpoint words_of_block (n : nat) (block : list Z) : list Z :=
  match n with
  | O => []
  | S n' => word_of_bytes (firstn 4 block) :: words_of_block n' (skipn 4 block)
  end.

(** One of the 64 operations of a block; [i] is the operation's index and
    [M] the sixteen message words of the block. *)
Definition step (M : list Z) (i : Z) (d : digest) : digest :=
  let '(Digest a b c d') := d in
  let '(f, g) :=
    if i <? 16 then (Z.lor (Z.land b c) (Z.land (not32 b) d'), i)
    else if i <? 32 then
      (Z.lor (Z.land d' b) (Z.land (not32 d') c), (5 * i + 1) mod 16)
    else if i <? 48 then (Z.lxor (Z.lxor b c) d', (3 * i + 5) mod 16)
    else (Z.lxor c (Z.lor b (not32 d')), (7 * i) mod 16) in
  let f' :=
    add32 (add32 (add32 f a) (List.nth (Z.to_nat i) K 0))
      (List.nth (Z.to_nat g) M 0) in
  Digest d' (add32 b (rotl32 f' (List.nth (Z.to_nat i) shifts 0))) b c.

Fixpoint rounds (M : list Z) (n : nat) (i : Z) (d : digest) : digest :=
  match n with
  | O => d
  | S n' => rounds M n' (i + 1) (step M i d)
  end.

Definition block (d : digest) (bytes : list Z) : digest :=
  let d' := rounds (words_of_block 16 bytes) 64 0 d in
  Digest (add32 (dA d) (dA d')) (add32 (dB d) (dB d'))
    (add32 (dC d) (dC d')) (add32 (dD d) (dD d')).

(** [n] blocks of 64 bytes are consumed from the front of [bytes]. *)
Fixpoint blocks (n : nat) (d : digest) (bytes : list Z) : digest :=
  match n with
  | O => d
  | S n' => blocks n' (block d (firstn 64 bytes)) (skipn 64 bytes)
  end.

(** Padding: a 0x80 byte, zeros up to 56 modulo 64, and the bit length
    as a 64-bit little-endian number. *)
Definition pad (msg : list Z) : list Z :=
  let len := Z.of_nat (List.length msg) in
  let bits := (8 * len) mod 2 ^ 64 in
  msg ++ [128] ++ repeat 0 (Z.to_nat ((55 - len) mod 64))
      ++ bytes_of_word bits ++ bytes_of_word (Z.shiftr bits 32).

(** [hashgen.Sum(nil)] after the message has been written. *)
Definition sum (msg : list Z) : list Z :=
  let p := pad msg in
  let d := blocks (List.length p / 64)%nat init p in
  bytes_of_word (dA d) ++ bytes_of_word (dB d)
    ++ bytes_of_word (dC d) ++ bytes_of_word (dD d).

End MD5.

(** A Go string is a sequence of bytes, as is a Rocq [string]. *)
Fixpoint bytes_of_string (s : string) : list Z :=
  match s with
  | EmptyString => []
  | String c s' => Z.of_N (N_of_ascii c) :: bytes_of_string s'
  end.

Module Hex.

Definition hextable : list ascii :=
  list_ascii_of_string "0123456789abcdef".

Definition digit (n : Z) : ascii :=
  List.nth (Z.to_nat n) hextable "0"%char.

(** [hex.EncodeToString]: two lower-case digits per byte, high nibble
    first. *)
Fixpoint EncodeToString (src : list Z) : string :=
  match src with
  | [] => EmptyString
  | b :: rest =>
      String (digit (Z.shiftr b 4))
        (String (digit (Z.land b 15)) (EncodeToString rest))
  end.

End Hex.

(** ** Hashing of authentication codes *)

Definition hashSalt : string := "MakeThisALittleBitLongerToChewOnEarlFoo".

Definition hashAuthCode (plain : string) : string :=
  Hex.EncodeToString (MD5.sum (bytes_of_string (hashSalt +:+ plain))).

(** ** What the file takes from the rest of the package

    [time.Time] comes from the Go library; [Level], [Target], the [User]
    struct, the [Clock] interface and the CSV reader and writer of users
    are declared in other files of package main. The authenticator is
    verified for every choice of them. *)

Class Types := {
  (** [time.Time], compared with [==] by [reloadIfChanged]. *)
  Time : Type;
  Time_eq_dec :: EqDecision Time;
  (** The zero value [time.Time{}] of a field never assigned. *)
  TimeZero : Time;
  (** [t.Hour()], the hour of the day in local time. *)
  Hour : Time -> Z;
  (** [t.IsZero()]. *)
  IsZero : Time -> bool;
  (** [Level] and the five constants the policy switches on. *)
  Level : Type;
  Level_eq_dec :: EqDecision Level;
  LevelLegacy : Level;
  LevelUser : Level;
  LevelFulltimeUser : Level;
  LevelMember : Level;
  LevelHiatus : Level;
  (** [Target] and the one constant the policy names. *)
  Target : Type;
  Target_eq_dec :: EqDecision Target;
  TargetDownstairs : Target;
  (** The fields of [User] this file never touches. *)
  UserRest : Type;
}.

(** The constants of a Go switch are pairwise different: the compiler
    rejects a duplicate case. *)
Definition levels_distinct `{Types} : Prop :=
  NoDup [LevelMember; LevelFulltimeUser; LevelUser; LevelHiatus; LevelLegacy].

(** The table stores [*User]; nothing in this file writes through such a
    pointer once it is stored, so the table is modelled as holding the
    record itself and [nil] as [None]. [Codes] and [Sponsors] hold hashed
    codes. *)
Record User `{Types} := {
  Name : string;
  ContactInfo : string;
  UserLevel : Level;
  Sponsors : list string;
  ValidFrom : Time;
  Codes : list string;
  Rest : UserRest;
}.

Definition setSponsors `{Types} (sponsors : list string) (user : User) : User :=
  {| Name := Name user; ContactInfo := ContactInfo user;
     UserLevel := UserLevel user; Sponsors := sponsors;
     ValidFrom := ValidFrom user; Codes := Codes user; Rest := Rest user |}.

Definition setValidFrom `{Types} (t : Time) (user : User) : User :=
  {| Name := Name user; ContactInfo := ContactInfo user;
     UserLevel := UserLevel user; Sponsors := Sponsors user;
     ValidFrom := t; Codes := Codes user; Rest := Rest user |}.

(** The [Clock] interface: a clock is the sequence of the values its
    [Now()] returns, indexed by the number of readings made so far. *)
Definition Clock `{Types} : Type := nat -> Time.

(** The user file, as the calls of this file observe it. One value
    describes the file for the length of one call: no other process
    changes the file while a call runs, so two [os.Stat] made by one call
    agree. Between two calls the file may change to any other value. *)
Record FileSys `{Types} := {
  (** [os.Stat(a.userFilename)]: the modification time, [None] on error. *)
  statResult : option Time;
  (** [os.Open(a.userFilename)]: [None] on error, else the values that
      successive calls of [NewUserFromCSV] return before it reports done
      ([None] for a comment or a short line). *)
  openResult : option (list (option User));
  (** [os.OpenFile(a.userFilename, O_WRONLY|O_APPEND, 0644)]: the text of
      the error, [None] when the file opens. *)
  appendError : option string;
}.

Class Collaborators `{Types} := {
  (** [user.InValidityPeriod(now)]. *)
  InValidityPeriod : User -> Time -> bool;
  (** [RealClock{}], the clock of a new authenticator. *)
  RealClock : Clock;
  (** [user.WriteCSV(writer)] followed by [writer.Flush()] on the file
      opened for appending: the error the writer recorded, if any (to be
      read with [writer.Error()]), and the file afterwards. *)
  WriteCSVFlush : User -> FileSys -> option string * FileSys;
}.

Section Authenticator.
Context {Ty : Types} {Collab : Collaborators}.

Record FileBasedAuthenticator := {
  userFilename : string;
  fileTimestamp : Time;
  validUsers : gmap string User;
  (** [true] while the mutex is held. *)
  validUsersLock : bool;
  clock : Clock;
  (** Ghost: the number of writes to [fileTimestamp] or [validUsers] made
      while [validUsersLock] was not held. *)
  unlockedWrites : nat;
}.

(** The receiver [a], the user file and the number of clock readings made
    so far. *)
Record World := {
  self : FileBasedAuthenticator;
  files : FileSys;
  clockTicks : nat;
}.

(** Run-time failures of the Go program. *)
Inductive Fault := NilDereference | Deadlock | UnlockOfUnlockedMutex.

Inductive Outcome (A : Type) :=
| Ret (x : A) (w : World)
| Crash (f : Fault).
Global Arguments Ret {A} x w.
Global Arguments Crash {A} f.

Definition M (A : Type) : Type := World -> Outcome A.

Definition ret {A} (x : A) : M A := fun w => Ret x w.

Definition bind {A B} (m : M A) (k : A -> M B) : M B :=
  fun w => match m w with
           | Ret x w' => k x w'
           | Crash f => Crash f
           end.

Definition crash {A} (f : Fault) : M A := fun _ => Crash f.

Global Instance M_ret : MRet M := @ret.
Global Instance M_bind : MBind M := fun A B k m => bind m k.

Definition withSelf (a : FileBasedAuthenticator) (w : World) : World :=
  {| self := a; files := files w; clockTicks := clockTicks w |}.

Definition getSelf : M FileBasedAuthenticator := fun w => Ret (self w) w.

Definition setLock (held : bool) (a : FileBasedAuthenticator) :=
  {| userFilename := userFilename a; fileTimestamp := fileTimestamp a;
     validUsers := validUsers a; validUsersLock := held; clock := clock a;
     unlockedWrites := unlockedWrites a |}.

Definition noteWrite (a : FileBasedAuthenticator) : nat :=
  if validUsersLock a then unlockedWrites a else S (unlockedWrites a).

Definition setFileTimestamp (t : Time) (a : FileBasedAuthenticator) :=
  {| userFilename := userFilename a; fileTimestamp := t;
     validUsers := validUsers a; validUsersLock := validUsersLock a;
     clock := clock a; unlockedWrites := noteWrite a |}.

Definition setValidUsers (users : gmap string User)
    (a : FileBasedAuthenticator) :=
  {| userFilename := userFilename a; fileTimestamp := fileTimestamp a;
     validUsers := users; validUsersLock := validUsersLock a;
     clock := clock a; unlockedWrites := noteWrite a |}.

(** [a] with the marker and the table replaced and nothing else touched:
    what a caller sees once writes made under the lock are over. *)
Definition swapped (t : Time) (users : gmap string User)
    (a : FileBasedAuthenticator) :=
  {| userFilename := userFilename a; fileTimestamp := t;
     validUsers := users; validUsersLock := validUsersLock a;
     clock := clock a; unlockedWrites := unlockedWrites a |}.

(** [a.validUsersLock.Lock()]: blocks for ever when the mutex is held. *)
Definition Lock : M unit := fun w =>
  if validUsersLock (self w) then Crash Deadlock
  else Ret tt (withSelf (setLock true (self w)) w).

(** [a.validUsersLock.Unlock()]: a run-time error on a free mutex. *)
Definition Unlock : M unit := fun w =>
  if validUsersLock (self w) then Ret tt (withSelf (setLock false (self w)) w)
  else Crash UnlockOfUnlockedMutex.

(** [Lock()] followed by [defer Unlock()] around the rest of the body. *)
Definition locked {A} (body : M A) : M A :=
  Lock ;; r ← body; Unlock ;; mret r.

Definition storeFileTimestamp (t : Time) : M unit := fun w =>
  Ret tt (withSelf (setFileTimestamp t (self w)) w).

Definition storeValidUsers (users : gmap string User) : M unit := fun w =>
  Ret tt (withSelf (setValidUsers users (self w)) w).

(** [a.clock.Now()]. *)
Definition Now : M Time := fun w =>
  Ret (clock (self w) (clockTicks w))
      {| self := self w; files := files w; clockTicks := S (clockTicks w) |}.

Definition osStat : M (option Time) := fun w => Ret (statResult (files w)) w.

Definition osOpen : M (option (list (option User))) :=
  fun w => Ret (openResult (files w)) w.

Definition osOpenFileAppend : M (option string) :=
  fun w => Ret (appendError (files w)) w.

Definition writeAndFlush (user : User) : M unit := fun w =>
  Ret tt {| self := self w; files := snd (WriteCSVFlush user (files w));
            clockTicks := clockTicks w |}.

(** Run a method on another receiver, as for [newAuth] in
    [reloadIfChanged]; the receiver comes back with the result. *)
Definition onReceiver {A} (a : FileBasedAuthenticator) (m : M A)
    : M (A * FileBasedAuthenticator) := fun w =>
  match m (withSelf a w) with
  | Ret x w' => Ret (x, self w') (withSelf (self w) w')
  | Crash f => Crash f
  end.

(** ** The functions of authenticator.go *)

Definition hasMinimalCodeRequirements (code : string) : bool :=
  (6 <=? String.length code)%nat.

Definition findUserSynchronized (plain_code : string) : M (option User) :=
  locked (a ← getSelf; mret (validUsers a !! hashAuthCode plain_code)).

(** The first loop of [addUserSynchronized]: is some code already set? *)
Fixpoint codeInUse (users : gmap string User) (codes : list string) : bool :=
  match codes with
  | [] => false
  | code :: rest =>
      match users !! code with
      | Some _ => true
      | None => codeInUse users rest
      end
  end.

(** Its second loop: [a.validUsers[code] = user] for every code. *)
Fixpoint setCodes (user : User) (codes : list string)
    (users : gmap string User) : gmap string User :=
  match codes with
  | [] => users
  | code :: rest => setCodes user rest (<[code := user]> users)
  end.

Definition addUserSynchronized (user : User) : M bool :=
  locked (a ← getSelf;
          if codeInUse (validUsers a) (Codes user) then mret false
          else storeValidUsers (setCodes user (Codes user) (validUsers a)) ;;
               mret true).

(** The reading loop of [readUserFile]; the counts are only logged. *)
Fixpoint addUsers (records : list (option User)) : M unit :=
  match records with
  | [] => mret tt
  | None :: rest => addUsers rest
  | Some user :: rest => addUserSynchronized user ;; addUsers rest
  end.

(** The table that loop leaves behind, as a function of the table it
    starts from: a record with a code already set is ignored. *)
Fixpoint loadUsers (records : list (option User))
    (users : gmap string User) : gmap string User :=
  match records with
  | [] => users
  | None :: rest => loadUsers rest users
  | Some user :: rest =>
      loadUsers rest (if codeInUse users (Codes user) then users
                      else setCodes user (Codes user) users)
  end.

Definition readUserFile : M bool :=
  a ← getSelf;
  if decide (userFilename a = "") then mret false
  else
    f ← osOpen;
    match f with
    | None => mret false
    | Some records =>
        fileinfo ← osStat;
        match fileinfo with
        | None => crash NilDereference
        | Some modTime =>
            storeFileTimestamp modTime ;; addUsers records ;; mret true
        end
    end.

Definition NewFileBasedAuthenticator (filename : string)
    : M (option FileBasedAuthenticator) :=
  '(ok, a) ← onReceiver
                {| userFilename := filename; fileTimestamp := TimeZero;
                   validUsers := ∅; validUsersLock := false;
                   clock := RealClock; unlockedWrites := O |} readUserFile;
  mret (if ok : bool then Some a else None).

Definition reloadIfChanged : M unit :=
  fileinfo ← osStat;
  match fileinfo with
  | None => mret tt
  | Some modTime =>
      a ← getSelf;
      if decide (fileTimestamp a = modTime) then mret tt
      else
        newAuth ← NewFileBasedAuthenticator (userFilename a);
        match newAuth with
        | None => mret tt
        | Some newAuth =>
            locked (storeFileTimestamp (fileTimestamp newAuth) ;;
                    storeValidUsers (validUsers newAuth))
        end
  end.

(** The copy [FindUser] returns is the record itself in a model of
    values. *)
Definition FindUser (plain_code : string) : M (option User) :=
  user ← findUserSynchronized plain_code;
  match user with
  | None => mret None
  | Some user => mret (Some user)
  end.

Definition AddNewUser (authentication_code : string) (user : User)
    : M (bool * string) :=
  authMember ← findUserSynchronized authentication_code;
  match authMember with
  | None => mret (false, "Couldn't find member with authentication code")
  | Some authMember =>
      if negb (bool_decide (UserLevel authMember = LevelMember))
      then mret (false, "Non-member AddNewUser attempt")
      else
        now ← Now;
        if negb (InValidityPeriod authMember now)
        then mret (false, "Auth-Member not in valid time-frame")
        else
          let user := setSponsors [hashAuthCode authentication_code] user in
          user ← (if IsZero (ValidFrom user)
                  then now ← Now; mret (setValidFrom now user)
                  else mret user);
          added ← addUserSynchronized user;
          if negb added then mret (false, "Duplicate codes while adding user")
          else
            err ← osOpenFileAppend;
            match err with
            | Some text => mret (false, text)
            | None =>
                writeAndFlush user ;;
                fileinfo ← osStat;
                match fileinfo with
                | None => crash NilDereference
                | Some modTime =>
                    storeFileTimestamp modTime ;; mret (true, "")
                end
            end
  end.

(** The record [AddNewUser] hands to [addUserSynchronized]: the candidate
    with [Sponsors] overwritten and, when [ValidFrom] was zero, with the
    clock reading [now] in its place. *)
Definition candidateToStore (authentication_code : string) (now : Time)
    (user : User) : User :=
  let user := setSponsors [hashAuthCode authentication_code] user in
  if IsZero (ValidFrom user) then setValidFrom now user else user.

Definition isUserDaytime : M bool :=
  now ← Now;
  let hour := Hour now in
  mret ((11 <=? hour) && (hour <? 22)).

Definition isFulltimeUserDaytime : M bool :=
  now ← Now;
  let hour := Hour now in
  mret ((7 <=? hour) && (hour <=? 23)).

Definition levelHasAccess (level : Level) (target : Target)
    : M (bool * string) :=
  if decide (level = LevelMember) then mret (true, "")
  else if decide (level = LevelFulltimeUser) then
    isday ← isFulltimeUserDaytime;
    if negb isday then mret (false, "Fulltime user outside daytime")
    else mret (isday, "")
  else if decide (level = LevelUser) then
    isday ← isUserDaytime;
    if negb isday then mret (false, "Regular user outside daytime")
    else mret (isday, "")
  else if decide (level = LevelHiatus) then mret (false, "On Hiatus")
  else if decide (level = LevelLegacy) then
    isday ← isUserDaytime;
    if negb isday then mret (false, "Gate user outside daytime")
    else mret (bool_decide (target = TargetDownstairs), "")
  else mret (false, "").

Definition AuthUser (code : string) (target : Target) : M (bool * string) :=
  if negb (hasMinimalCodeRequirements code)
  then mret (false, "Auth failed: too short code.")
  else
    reloadIfChanged ;;
    user ← findUserSynchronized code;
    match user with
    | None => mret (false, "No user for code")
    | Some user =>
        if bool_decide (UserLevel user = LevelHiatus)
        then mret (false, "User on hiatus '" +:+ Name user +:+ " <"
                          +:+ ContactInfo user +:+ ">'")
        else
          now ← Now;
          if negb (InValidityPeriod user now)
          then mret (false, "Code not valid yet/expired")
          else levelHasAccess (UserLevel user) target
    end.

End Authenticator.

(** ** Substrings, for the reasons a denial carries *)

Definition Contains (s substr : string) : Prop :=
  exists pre post, s = pre +:+ substr +:+ post.

Fixpoint hasPrefix (s prefix : string) {struct prefix} : bool :=
  match prefix, s with
  | EmptyString, _ => true
  | String _ _, EmptyString => false
  | String c prefix', String d s' =>
      if Ascii.eqb c d then hasPrefix s' prefix' else false
  end.

(** [strings.Contains] *)
Fixpoint stringsContains (s substr : string) : bool :=
  hasPrefix s substr
  || match s with
     | EmptyString => false
     | String _ s' => stringsContains s' substr
     end.

(** A table is fully indexed when every entry is filed under a code of
    its own record and the record is filed under each of its codes: no
    record is partially indexed. *)
Definition fullyIndexed `{Types} (users : gmap string User) : Prop :=
  forall code user,
    users !! code = Some user ->
    code ∈ Codes user
    /\ forall code', code' ∈ Codes user -> users !! code' = Some user.

(** The state once the clock has been read one more time. *)
Definition ticked `{Types} (w : World) : World :=
  {| self := self w; files := files w; clockTicks := S (clockTicks w) |}.

(** The hexadecimal digits of [hex.EncodeToString]. *)
Definition isHexDigit (c : ascii) : Prop := In c Hex.hextable.

(** Whether an outcome is a grant. *)
Definition granted `{Types} (o : Outcome (bool * string)) : bool :=
  match o with
  | Ret (ok, _) _ => ok
  | Crash _ => false
  end.

(** The value a call returns, [None] when the program crashes. *)
Definition returned `{Types} {A} (o : Outcome A) : option A :=
  match o with
  | Ret x _ => Some x
  | Crash _ => None
  end.

(** ** A concrete package, for running the authenticator

    Times are seconds since the zero time, levels and targets are tags,
    and the remaining field of a user is the end of its validity. *)

Module Fixture.

Definition types : Types :=
  {| Time := Z; TimeZero := 0;
     Hour := fun t => (t / 3600) mod 24;
     IsZero := fun t => t =? 0;
     Level := string;
     LevelLegacy := "legacy"; LevelUser := "user";
     LevelFulltimeUser := "fulltimeuser"; LevelMember := "member";
     LevelHiatus := "hiatus";
     Target := string; TargetDownstairs := "gate";
     UserRest := Z |}.

#[local] Existing Instance types.

Definition inValidityPeriod (user : @User types) (now : Z) : bool :=
  ((ValidFrom user =? 0) || (ValidFrom user <? now))
  && ((Rest user =? 0) || (now <? Rest user)).

(** A disk that takes the record: the file grows and its modification
    time moves on. *)
Definition collab : @Collaborators types :=
  {| InValidityPeriod := inValidityPeriod;
     RealClock := fun n => Z.of_nat n;
     WriteCSVFlush := fun user fs =>
       (None,
        {| statResult := (fun t => t + 1) <$> statResult fs;
           openResult := (fun records => records ++ [Some user])
                           <$> openResult fs;
           appendError := appendError fs |}) |}.

(** A full disk: the file opens, the write fails, the file stays. *)
Definition fullDisk : @Collaborators types :=
  {| InValidityPeriod := inValidityPeriod;
     RealClock := fun n => Z.of_nat n;
     WriteCSVFlush := fun user fs =>
       (Some "write users.csv: no space left on device", fs) |}.

Definition mkUser (name contact : string) (level : string)
    (plain_codes : list string) : @User types :=
  {| Name := name; ContactInfo := contact; UserLevel := level;
     Sponsors := []; ValidFrom := 0; Codes := hashAuthCode <$> plain_codes;
     Rest := 0 |}.

Definition ada := mkUser "Ada" "ada@example.org" "member" ["sponsor1"].
Definition zoe := mkUser "Zoe" "zoe@example.org" "hiatus" ["12345"; "zoe-card"].
Definition gus := mkUser "Gus" "gus@example.org" "legacy" ["gus-card"].
Definition newbie := mkUser "Ned" "ned@example.org" "user" ["newcode9"].

Definition users : gmap string (@User types) :=
  setCodes gus (Codes gus)
    (setCodes zoe (Codes zoe) (setCodes ada (Codes ada) ∅)).

Definition disk : @FileSys types :=
  {| statResult := Some 1000;
     openResult := Some [Some ada; None; Some zoe; Some gus];
     appendError := None |}.

(** The authenticator at three in the afternoon, the file unchanged
    since it was read. *)
Definition world : @World types :=
  {| self := {| userFilename := "users.csv"; fileTimestamp := 1000;
                validUsers := users; validUsersLock := false;
                clock := fun _ => 15 * 3600; unlockedWrites := O |};
     files := disk; clockTicks := O |}.

(** The same, the user file having been rewritten since. *)
Definition changedWorld : @World types :=
  {| self := self world;
     files := {| statResult := Some 2000;
                 openResult := Some [Some ada; None; Some gus];
                 appendError := None |};
     clockTicks := O |}.

(** The authenticator [reloadIfChanged] builds from that file. *)
Definition rebuilt : @FileBasedAuthenticator types :=
  {| userFilename := "users.csv"; fileTimestamp := 2000;
     validUsers := setCodes gus (Codes gus) (setCodes ada (Codes ada) ∅);
     validUsersLock := false; clock := fun n => Z.of_nat n;
     unlockedWrites := 1 |}.

(** The same as [world], the user file being read-only. *)
Definition readOnlyWorld : @World types :=
  {| self := self world;
     files := {| statResult := Some 1000;
                 openResult := openResult disk;
                 appendError := Some "open users.csv: permission denied" |};
     clockTicks := O |}.

(** Ned as [AddNewUser] stores him when Ada sponsors him. *)
Definition storedNewbie : @User types :=
  candidateToStore "sponsor1" (15 * 3600) newbie.

(** The state [AddNewUser] leaves when Ada has sponsored Ned. *)
Definition provisioned : @World types :=
  {| self := setFileTimestamp 1001
               (swapped 1000 (setCodes storedNewbie (Codes newbie) users)
                  (self world));
     files := (@WriteCSVFlush _ collab storedNewbie disk).2;
     clockTicks := 2 |}.

(** A candidate without any code. *)
Definition codeless := mkUser "Nil" "nil@example.org" "user" [].

End Fixture.


(** * Properties *)

Create HintDb earl.
#[global] Hint Unfold locked Lock Unlock getSelf storeValidUsers
  storeFileTimestamp Now osStat osOpen osOpenFileAppend writeAndFlush crash
  onReceiver withSelf mbind M_bind bind mret M_ret ret : earl.

Ltac run := repeat progress (autounfold with earl in *; simpl in *).

(** ** The hash *)

Lemma bytes_of_word_range (w : Z) :
  Forall (fun b => 0 <= b < 256) (MD5.bytes_of_word w).
Proof.
  unfold MD5.bytes_of_word.
  repeat constructor;
    change 255 with (Z.ones 8); rewrite Z.land_ones by lia;
    apply Z.mod_pos_bound; lia.
Qed.

(** The model of the digest agrees with the test suite of RFC 1321, on a
    message of two blocks and on a salted code. *)
Example md5_empty :
  Hex.EncodeToString (MD5.sum (bytes_of_string ""))
  = "d41d8cd98f00b204e9800998ecf8427e".
Proof. reflexivity. Qed.

Example md5_abc :
  Hex.EncodeToString (MD5.sum (bytes_of_string "abc"))
  = "900150983cd24fb0d6963f7d28e17f72".
Proof. reflexivity. Qed.

Example md5_two_blocks :
  Hex.EncodeToString
    (MD5.sum (bytes_of_string
       "aaaaaaaaaaaaaaaaaaaaaaaaaaaaaaaaaaaaaaaaaaaaaaaaaaaaaaaaaaaaaaaaaaaaaa"))
  = "0f5c6c4e740bfcc08c3c26ccb2673d46".
Proof. reflexivity. Qed.

Example hashAuthCode_123456 :
  hashAuthCode "123456" = "ef078ddc22f12bf708a6322656313d9a".
Proof. reflexivity. Qed.

(** A digest is sixteen bytes, whatever the message. *)
Lemma sum_length (msg : list Z) : List.length (MD5.sum msg) = 16%nat.
Proof. unfold MD5.sum. cbv zeta. by rewrite !length_app. Qed.

Lemma sum_range (msg : list Z) : Forall (fun b => 0 <= b < 256) (MD5.sum msg).
Proof.
  unfold MD5.sum. cbv zeta.
  rewrite !Forall_app. split_and!; apply bytes_of_word_range.
Qed.

Lemma EncodeToString_length (src : list Z) :
  String.length (Hex.EncodeToString src) = (2 * List.length src)%nat.
Proof. induction src as [|b src IH]; simpl; [done|]. rewrite IH. lia. Qed.

Lemma digit_hex (n : Z) : isHexDigit (Hex.digit n).
Proof.
  unfold isHexDigit, Hex.digit.
  destruct (nth_in_or_default (Z.to_nat n) Hex.hextable "0"%char)
    as [Hin | ->]; [done|]. by left.
Qed.

Lemma EncodeToString_hex (src : list Z) :
  Forall isHexDigit (list_ascii_of_string (Hex.EncodeToString src)).
Proof.
  induction src as [|b src IH]; simpl; [constructor|].
  constructor; [apply digit_hex|]. constructor; [apply digit_hex|exact IH].
Qed.

(** C9: hashing is deterministic and of fixed width. [hashAuthCode] is a
    function of the plain code alone: it reads neither the authenticator
    nor the file nor the clock, so equal inputs give equal keys at any
    time, in any run of the program; and for every input the key is a
    string of 32 hexadecimal digits. *)
Theorem hashAuthCode_fixed_width (plain : string) :
  String.length (hashAuthCode plain) = 32%nat
  /\ Forall isHexDigit (list_ascii_of_string (hashAuthCode plain))
  /\ forall plain', plain' = plain -> hashAuthCode plain' = hashAuthCode plain.
Proof.
  unfold hashAuthCode. split_and!.
  - by rewrite EncodeToString_length, sum_length.
  - apply EncodeToString_hex.
  - by intros plain' ->.
Qed.

(** ** Substrings *)

Lemma append_cons (c : ascii) (s1 s2 : string) :
  String c s1 +:+ s2 = String c (s1 +:+ s2).
Proof. reflexivity. Qed.

Lemma append_assoc (s1 s2 s3 : string) :
  (s1 +:+ s2) +:+ s3 = s1 +:+ s2 +:+ s3.
Proof.
  induction s1 as [|c s1 IH]; [done|]. rewrite !append_cons. by f_equal.
Qed.

Lemma hasPrefix_append (s rest : string) : hasPrefix (s +:+ rest) s = true.
Proof.
  induction s as [|c s IH]; [done|].
  rewrite append_cons. simpl. by rewrite Ascii.eqb_refl.
Qed.

Lemma Contains_stringsContains (s substr : string) :
  Contains s substr -> stringsContains s substr = true.
Proof.
  intros (pre & post & ->). induction pre as [|c pre IH].
  - change ("" +:+ substr +:+ post) with (substr +:+ post).
    destruct substr as [|d substr]; [by destruct post|].
    rewrite append_cons. simpl.
    by rewrite Ascii.eqb_refl, hasPrefix_append.
  - rewrite append_cons. simpl. rewrite IH. apply orb_true_r.
Qed.

Section Proofs.
Context {Ty : Types} {Collab : Collaborators}.

(** ** The table *)

Lemma codeInUse_true (users : gmap string User) (codes : list string) :
  codeInUse users codes = true <->
  exists code, code ∈ codes /\ is_Some (users !! code).
Proof.
  induction codes as [|c codes IH]; simpl.
  - split; [discriminate|]. intros (code & Hin & _). inversion Hin.
  - destruct (users !! c) eqn:Hc.
    + split; [|done]. intros _. exists c. split; [left|]. by rewrite Hc.
    + rewrite IH. split.
      * intros (code & Hin & Hs). exists code. split; [by right|done].
      * intros (code & Hin & Hs). exists code. split; [|done].
        apply elem_of_cons in Hin as [->|Hin]; [|done].
        rewrite Hc in Hs. by destruct Hs.
Qed.

Lemma codeInUse_false (users : gmap string User) (codes : list string) :
  codeInUse users codes = false <->
  forall code, code ∈ codes -> users !! code = None.
Proof.
  split.
  - intros Hno code Hin. destruct (users !! code) eqn:Hc; [|done].
    assert (codeInUse users codes = true) as Hyes; [|congruence].
    apply codeInUse_true. exists code. split; [done|]. by rewrite Hc.
  - intros Hall. destruct (codeInUse users codes) eqn:Hc; [|done].
    apply codeInUse_true in Hc as (code & Hin & Hs).
    rewrite (Hall code Hin) in Hs. by destruct Hs.
Qed.

Lemma setCodes_notin (user : User) (codes : list string)
    (users : gmap string User) (code : string) :
  code ∉ codes -> setCodes user codes users !! code = users !! code.
Proof.
  revert users. induction codes as [|c codes IH]; intros users Hnot; simpl.
  - done.
  - apply not_elem_of_cons in Hnot as [Hne Hnot].
    rewrite IH by done. by rewrite lookup_insert_ne.
Qed.

Lemma setCodes_in (user : User) (codes : list string)
    (users : gmap string User) (code : string) :
  code ∈ codes -> setCodes user codes users !! code = Some user.
Proof.
  revert users. induction codes as [|c codes IH]; intros users Hin; simpl.
  - inversion Hin.
  - destruct (decide (code ∈ codes)) as [Hlater|Hnot].
    + by apply IH.
    + apply elem_of_cons in Hin as [->|Hin]; [|done].
      rewrite setCodes_notin by done. apply lookup_insert_eq.
Qed.

(** ** The synchronized accessors, run from a free mutex *)

Lemma findUserSynchronized_eq (plain_code : string) (w : World) :
  validUsersLock (self w) = false ->
  findUserSynchronized plain_code w
  = Ret (validUsers (self w) !! hashAuthCode plain_code) w.
Proof.
  intros Hfree. destruct w as [[] ? ?]; simpl in *; subst.
  unfold findUserSynchronized. by run.
Qed.

Lemma addUserSynchronized_eq (user : User) (w : World) :
  validUsersLock (self w) = false ->
  addUserSynchronized user w
  = if codeInUse (validUsers (self w)) (Codes user) then Ret false w
    else Ret true
           (withSelf (swapped (fileTimestamp (self w))
                        (setCodes user (Codes user) (validUsers (self w)))
                        (self w)) w).
Proof.
  intros Hfree. destruct w as [[] ? ?]; simpl in *; subst.
  unfold addUserSynchronized. run. by destruct (codeInUse _ _).
Qed.

Lemma addUsers_eq (records : list (option User)) (w : World) :
  validUsersLock (self w) = false ->
  addUsers records w
  = Ret tt (withSelf (swapped (fileTimestamp (self w))
                        (loadUsers records (validUsers (self w)))
                        (self w)) w).
Proof.
  revert w. induction records as [|[user|] records IH]; intros w Hfree.
  - destruct w as [[] ? ?]. by run.
  - change (addUsers (Some user :: records) w)
      with (bind (addUserSynchronized user) (fun _ => addUsers records) w).
    unfold bind. rewrite addUserSynchronized_eq by done.
    cbn [loadUsers].
    destruct (codeInUse _ _); rewrite IH by done; [done|].
    by destruct w as [[] ? ?].
  - by apply IH.
Qed.

(** ** Building a table from the user file *)

Lemma NewFileBasedAuthenticator_eq (filename : string) (w : World) :
  NewFileBasedAuthenticator filename w
  = if decide (filename = "") then Ret None w
    else match openResult (files w) with
         | None => Ret None w
         | Some records =>
             match statResult (files w) with
             | None => Crash NilDereference
             | Some modTime =>
                 Ret (Some {| userFilename := filename;
                              fileTimestamp := modTime;
                              validUsers := loadUsers records ∅;
                              validUsersLock := false;
                              clock := RealClock;
                              unlockedWrites := 1 |}) w
             end
         end.
Proof.
  destruct w as [a fs ticks].
  unfold NewFileBasedAuthenticator, readUserFile. run.
  destruct (decide (filename = "")); [done|]. run.
  destruct (openResult fs) as [records|]; [|done]. run.
  destruct (statResult fs) as [modTime|]; [|done]. run.
  by rewrite addUsers_eq.
Qed.

Lemma reloadIfChanged_eq (w : World) :
  reloadIfChanged w
  = match statResult (files w) with
    | None => Ret tt w
    | Some modTime =>
        if decide (fileTimestamp (self w) = modTime) then Ret tt w
        else if decide (userFilename (self w) = "") then Ret tt w
        else match openResult (files w) with
             | None => Ret tt w
             | Some records =>
                 if validUsersLock (self w) then Crash Deadlock
                 else Ret tt (withSelf (swapped modTime (loadUsers records ∅)
                                          (self w)) w)
             end
    end.
Proof.
  unfold reloadIfChanged.
  unfold mbind at 1, M_bind at 1, bind at 1, osStat at 1.
  destruct (statResult (files w)) as [modTime|] eqn:Hstat; [|done].
  unfold mbind at 1, M_bind at 1, bind at 1, getSelf at 1.
  destruct (decide (fileTimestamp (self w) = modTime)); [done|].
  unfold mbind at 1, M_bind at 1, bind at 1.
  rewrite NewFileBasedAuthenticator_eq, Hstat.
  destruct (decide (userFilename (self w) = "")); [done|].
  destruct (openResult (files w)) as [records|]; [|done].
  destruct w as [[] ? ?]; simpl in *. run.
  by destruct validUsersLock0.
Qed.

(** C1: [addUserSynchronized] is all-or-nothing. Called with the mutex
    free: if some code of the record is already set in the table, it
    returns false and leaves the whole state as it was, so every code set
    before still maps to its record and no further code of the new record
    has become retrievable; if no code of the record is set, it returns
    true and afterwards every code of the record maps to the record, the
    other codes being untouched. In both cases a code that maps to a
    record keeps mapping to that record: a code maps to at most one
    record at all times. *)
Theorem addUserSynchronized_all_or_nothing (user : User) (w : World) :
  validUsersLock (self w) = false ->
  ((exists code, code ∈ Codes user /\ is_Some (validUsers (self w) !! code)) ->
   addUserSynchronized user w = Ret false w)
  /\ ((forall code, code ∈ Codes user -> validUsers (self w) !! code = None) ->
      exists w',
        addUserSynchronized user w = Ret true w'
        /\ (forall code, code ∈ Codes user ->
             validUsers (self w') !! code = Some user)
        /\ (forall code, code ∉ Codes user ->
             validUsers (self w') !! code = validUsers (self w) !! code))
  /\ (exists ok w',
        addUserSynchronized user w = Ret ok w'
        /\ forall code u, validUsers (self w) !! code = Some u ->
                          validUsers (self w') !! code = Some u).
Proof.
  intros Hfree. rewrite addUserSynchronized_eq by done.
  split; [|split].
  - intros Hused. apply codeInUse_true in Hused. by rewrite Hused.
  - intros Hnone. apply codeInUse_false in Hnone as Hno. rewrite Hno.
    eexists. split; [done|]. simpl. split.
    + intros code Hin. by apply setCodes_in.
    + intros code Hnot. by apply setCodes_notin.
  - destruct (codeInUse _ _) eqn:Huse.
    + by exists false, w.
    + eexists true, _. split; [done|]. simpl. intros code u Hu.
      rewrite setCodes_notin; [done|].
      intros Hin. rewrite codeInUse_false in Huse.
      rewrite (Huse code Hin) in Hu. discriminate.
Qed.

(** ** The access policy *)

Lemma levels_distinct_ne :
  levels_distinct ->
  LevelFulltimeUser <> LevelMember
  /\ LevelUser <> LevelMember /\ LevelUser <> LevelFulltimeUser
  /\ LevelHiatus <> LevelMember /\ LevelHiatus <> LevelFulltimeUser
  /\ LevelHiatus <> LevelUser
  /\ LevelLegacy <> LevelMember /\ LevelLegacy <> LevelFulltimeUser
  /\ LevelLegacy <> LevelUser /\ LevelLegacy <> LevelHiatus.
Proof.
  unfold levels_distinct. rewrite !NoDup_cons, !elem_of_cons.
  intros (Hm & Hf & Hu & Hh & _). repeat split; intros Heq;
    rewrite Heq in *; tauto.
Qed.

Lemma levelHasAccess_returns (level : Level) (target : Target) (w : World) :
  exists r w', levelHasAccess level target w = Ret r w'.
Proof.
  unfold levelHasAccess, isFulltimeUserDaytime, isUserDaytime.
  repeat case_decide; run;
    repeat match goal with
           | |- context [negb ?b] => destruct b; simpl
           end; eauto.
Qed.

(** C2: the access policy grants exactly per the level table, for every
    target and whatever the clock shows when it is read: a member is
    always granted; a full-time user iff the hour is in [7, 24); a regular
    user iff the hour is in [11, 22); a user on hiatus never; a legacy
    user iff the hour is in [11, 22) and the target is the downstairs one;
    a level outside the five is denied. The policy always returns. *)
Theorem levelHasAccess_table (target : Target) (w : World) :
  levels_distinct ->
  let hour := Hour (clock (self w) (clockTicks w)) in
  granted (levelHasAccess LevelMember target w) = true
  /\ (granted (levelHasAccess LevelFulltimeUser target w) = true
      <-> 7 <= hour < 24)
  /\ (granted (levelHasAccess LevelUser target w) = true
      <-> 11 <= hour < 22)
  /\ granted (levelHasAccess LevelHiatus target w) = false
  /\ (granted (levelHasAccess LevelLegacy target w) = true
      <-> 11 <= hour < 22 /\ target = TargetDownstairs)
  /\ (forall level,
        level ∉ [LevelMember; LevelFulltimeUser; LevelUser; LevelHiatus;
                 LevelLegacy] ->
        granted (levelHasAccess level target w) = false)
  /\ (forall level, exists r w', levelHasAccess level target w = Ret r w').
Proof.
  intros Hdistinct hour.
  destruct (levels_distinct_ne Hdistinct)
    as (? & ? & ? & ? & ? & ? & ? & ? & ? & ?).
  split_and!.
  - unfold levelHasAccess. by rewrite decide_True.
  - unfold levelHasAccess, isFulltimeUserDaytime.
    rewrite decide_False, decide_True by done. run. fold hour.
    destruct (Z.leb_spec 7 hour), (Z.leb_spec hour 23); simpl;
      split; intros; first [lia | done].
  - unfold levelHasAccess, isUserDaytime.
    rewrite !decide_False, decide_True by done. run. fold hour.
    destruct (Z.leb_spec 11 hour), (Z.ltb_spec hour 22); simpl;
      split; intros; first [lia | done].
  - unfold levelHasAccess. rewrite !decide_False, decide_True by done. done.
  - unfold levelHasAccess, isUserDaytime.
    rewrite !decide_False, decide_True by done. run. fold hour.
    rewrite <- (bool_decide_eq_true (target = TargetDownstairs)).
    destruct (Z.leb_spec 11 hour), (Z.ltb_spec hour 22); simpl;
      split; first [intros [? ?] | intros ?]; first [lia | done].
  - intros level Hout. rewrite !not_elem_of_cons in Hout.
    destruct Hout as (? & ? & ? & ? & ? & _).
    unfold levelHasAccess. rewrite !decide_False by done. done.
  - intros level. apply levelHasAccess_returns.
Qed.

(** ** AuthUser and FindUser on short codes *)

(** C7: for every code shorter than the minimum of six bytes, [AuthUser]
    denies with the too-short reason, for every target and in every
    state: whatever the table holds, whatever the clock shows and whether
    or not the user file has changed. The state is returned as it was, so
    nothing was reloaded, and the mutex is not even taken. *)
Theorem AuthUser_short_code (code : string) (target : Target) (w : World) :
  (String.length code < 6)%nat ->
  AuthUser code target w = Ret (false, "Auth failed: too short code.") w.
Proof.
  intros Hshort. unfold AuthUser, hasMinimalCodeRequirements.
  by destruct (Nat.leb_spec 6 (String.length code)); [lia|].
Qed.

(** C10: [FindUser] applies no minimum length. Called with the mutex
    free, for every plain code whose hash is set in the table it returns
    the record (a copy, never nil) and leaves the state alone, also when
    the code is shorter than six bytes, in which case [AuthUser] rejects
    the same code as too short. *)
Theorem FindUser_ignores_length (plain_code : string) (user : User)
    (target : Target) (w : World) :
  validUsersLock (self w) = false ->
  validUsers (self w) !! hashAuthCode plain_code = Some user ->
  FindUser plain_code w = Ret (Some user) w
  /\ (hasMinimalCodeRequirements plain_code = false ->
      AuthUser plain_code target w
      = Ret (false, "Auth failed: too short code.") w).
Proof.
  intros Hfree Hset. split.
  - unfold FindUser. unfold mbind, M_bind, bind.
    by rewrite findUserSynchronized_eq, Hset.
  - intros Hshort. unfold AuthUser. by rewrite Hshort.
Qed.

(** ** Reloading *)

Lemma NewFileBasedAuthenticator_world (filename : string) (w w' : World)
    (r : option FileBasedAuthenticator) :
  NewFileBasedAuthenticator filename w = Ret r w' -> w' = w.
Proof.
  rewrite NewFileBasedAuthenticator_eq.
  repeat case_match; congruence.
Qed.

Lemma reloadIfChanged_returns (w : World) :
  validUsersLock (self w) = false ->
  exists w1,
    reloadIfChanged w = Ret tt w1
    /\ validUsersLock (self w1) = false
    /\ clockTicks w1 = clockTicks w
    /\ files w1 = files w.
Proof.
  intros Hfree. rewrite reloadIfChanged_eq, Hfree.
  repeat case_match; eauto.
Qed.

(** C6: [reloadIfChanged] leaves the state as it was when the
    modification time of the user file equals the recorded one, when the
    stat fails, and when no table can be built from the file
    ([NewFileBasedAuthenticator] returns nil). When the modification time
    differs and a table is built, the call returns, from a free mutex,
    with the recorded time and the table both replaced by those of the new
    authenticator and nothing else changed: the mutex is free again and
    the count of writes made outside the mutex is the same, so both writes
    were made while it was held. The new recorded time is the one the file
    has. *)
Theorem reloadIfChanged_frame (w : World) :
  (statResult (files w) = Some (fileTimestamp (self w)) ->
   reloadIfChanged w = Ret tt w)
  /\ (statResult (files w) = None -> reloadIfChanged w = Ret tt w)
  /\ (forall w',
        NewFileBasedAuthenticator (userFilename (self w)) w = Ret None w' ->
        reloadIfChanged w = Ret tt w)
  /\ (forall modTime newAuth w',
        statResult (files w) = Some modTime ->
        fileTimestamp (self w) <> modTime ->
        NewFileBasedAuthenticator (userFilename (self w)) w
        = Ret (Some newAuth) w' ->
        validUsersLock (self w) = false ->
        reloadIfChanged w
        = Ret tt (withSelf (swapped (fileTimestamp newAuth)
                              (validUsers newAuth) (self w)) w)
        /\ fileTimestamp newAuth = modTime).
Proof.
  split_and!.
  - intros Hstat. rewrite reloadIfChanged_eq, Hstat. by rewrite decide_True.
  - intros Hstat. by rewrite reloadIfChanged_eq, Hstat.
  - intros w'. rewrite reloadIfChanged_eq, NewFileBasedAuthenticator_eq.
    repeat case_match; congruence.
  - intros modTime newAuth w' Hstat Hne.
    rewrite reloadIfChanged_eq, NewFileBasedAuthenticator_eq, Hstat.
    rewrite (decide_False (P := fileTimestamp (self w) = modTime)) by done.
    intros Hnew Hfree. rewrite Hfree.
    repeat case_match; by simplify_eq.
Qed.

(** ** Users on hiatus *)

(** C3, as amended: called with the mutex free and a code of at least six
    bytes, [AuthUser] first reloads; if the table then maps the hash of
    the code to a record whose level is Hiatus, it denies, for every
    target, with a reason that contains the record's Name and ContactInfo.
    The state returned is the one the reload left: the clock has not been
    read, so neither the validity period nor the access policy was
    consulted, whatever they would have said. *)
Theorem AuthUser_hiatus_names_holder (code : string) (target : Target)
    (w : World) :
  (6 <= String.length code)%nat ->
  validUsersLock (self w) = false ->
  exists w1,
    reloadIfChanged w = Ret tt w1
    /\ clockTicks w1 = clockTicks w
    /\ forall user,
         validUsers (self w1) !! hashAuthCode code = Some user ->
         UserLevel user = LevelHiatus ->
         exists reason,
           AuthUser code target w = Ret (false, reason) w1
           /\ Contains reason (Name user)
           /\ Contains reason (ContactInfo user).
Proof.
  intros Hlong Hfree.
  destruct (reloadIfChanged_returns w Hfree) as (w1 & Hreload & Hfree1 & Hticks & _).
  exists w1. split_and!; [done..|].
  intros user Hfound Hhiatus. eexists. split_and!.
  - unfold AuthUser, hasMinimalCodeRequirements.
    destruct (Nat.leb_spec 6 (String.length code)); [|lia]. cbn [negb].
    unfold mbind, M_bind, bind. rewrite Hreload.
    rewrite findUserSynchronized_eq, Hfound by done.
    by rewrite bool_decide_eq_true_2.
  - by exists "User on hiatus '", (" <" +:+ ContactInfo user +:+ ">'").
  - exists ("User on hiatus '" +:+ Name user +:+ " <"), ">'".
    by rewrite !append_assoc.
Qed.

(** ** Adding a user *)

(** [AddNewUser] once the sponsor has passed the three checks. The clock
    is read once for the sponsor's validity and once more when the
    candidate has no ValidFrom. *)
Lemma AddNewUser_eq (authentication_code : string) (user sponsor : User)
    (w : World) :
  validUsersLock (self w) = false ->
  validUsers (self w) !! hashAuthCode authentication_code = Some sponsor ->
  UserLevel sponsor = LevelMember ->
  InValidityPeriod sponsor (clock (self w) (clockTicks w)) = true ->
  let stored :=
    candidateToStore authentication_code
      (clock (self w) (S (clockTicks w))) user in
  let ticks :=
    if IsZero (ValidFrom user) then S (S (clockTicks w))
    else S (clockTicks w) in
  let a :=
    swapped (fileTimestamp (self w))
      (setCodes stored (Codes user) (validUsers (self w))) (self w) in
  AddNewUser authentication_code user w
  = if codeInUse (validUsers (self w)) (Codes user)
    then Ret (false, "Duplicate codes while adding user")
           {| self := self w; files := files w; clockTicks := ticks |}
    else match appendError (files w) with
         | Some text =>
             Ret (false, text)
               {| self := a; files := files w; clockTicks := ticks |}
         | None =>
             let fs := (WriteCSVFlush stored (files w)).2 in
             match statResult fs with
             | None => Crash NilDereference
             | Some modTime =>
                 Ret (true, "")
                   {| self := setFileTimestamp modTime a; files := fs;
                      clockTicks := ticks |}
             end
         end.
Proof.
  intros Hfree Hsponsor Hmember Hvalid.
  destruct w as [[filename stamp users held clk writes] fs ticks].
  simpl in *; subst held.
  unfold AddNewUser, findUserSynchronized, addUserSynchronized,
    candidateToStore. run.
  rewrite Hsponsor. run.
  rewrite bool_decide_eq_true_2 by done. run.
  rewrite Hvalid. run.
  destruct (IsZero (ValidFrom user)); run;
    (destruct (codeInUse users (Codes user)); run; [done|]);
    (destruct (appendError fs); run; [done|]);
    by destruct (statResult _).
Qed.

Lemma candidateToStore_fields (authentication_code : string) (now : Time)
    (user : User) :
  let stored := candidateToStore authentication_code now user in
  Sponsors stored = [hashAuthCode authentication_code]
  /\ ValidFrom stored = (if IsZero (ValidFrom user) then now
                         else ValidFrom user)
  /\ Name stored = Name user /\ ContactInfo stored = ContactInfo user
  /\ UserLevel stored = UserLevel user /\ Codes stored = Codes user
  /\ Rest stored = Rest user.
Proof.
  unfold candidateToStore. simpl. by destruct (IsZero (ValidFrom user)).
Qed.

(** C4: called with the mutex free, [AddNewUser] rejects with its own
    reason when the sponsor code resolves to no record, when the sponsor
    is not a member, and when the sponsor is outside its validity period
    at the time the clock shows; so it returns ok only when all three
    checks pass. When they pass and no code of the candidate is in use,
    the call stores, under every code of the candidate, the candidate with
    Sponsors equal to the one-element list of the hash of the sponsor
    code, whatever Sponsors held before, and with ValidFrom equal to the
    next clock reading if it was zero and unchanged otherwise; the other
    fields are the candidate's. The call then ends in one of three ways:
    a reject with the text of the error of opening the file, ok, or a
    nil dereference when the file cannot be inspected after the write. *)
Theorem AddNewUser_sponsor_gate (authentication_code : string) (user : User)
    (w : World) :
  validUsersLock (self w) = false ->
  let sponsor := validUsers (self w) !! hashAuthCode authentication_code in
  let now := clock (self w) (clockTicks w) in
  let next := clock (self w) (S (clockTicks w)) in
  (sponsor = None ->
   AddNewUser authentication_code user w
   = Ret (false, "Couldn't find member with authentication code") w)
  /\ (forall s, sponsor = Some s -> UserLevel s <> LevelMember ->
      AddNewUser authentication_code user w
      = Ret (false, "Non-member AddNewUser attempt") w)
  /\ (forall s, sponsor = Some s -> UserLevel s = LevelMember ->
      InValidityPeriod s now = false ->
      exists w',
        AddNewUser authentication_code user w
        = Ret (false, "Auth-Member not in valid time-frame") w'
        /\ self w' = self w)
  /\ (forall reason w',
        AddNewUser authentication_code user w = Ret (true, reason) w' ->
        exists s, sponsor = Some s /\ UserLevel s = LevelMember
                  /\ InValidityPeriod s now = true)
  /\ (forall s, sponsor = Some s -> UserLevel s = LevelMember ->
      InValidityPeriod s now = true ->
      codeInUse (validUsers (self w)) (Codes user) = false ->
      exists stored,
        Sponsors stored = [hashAuthCode authentication_code]
        /\ ValidFrom stored = (if IsZero (ValidFrom user) then next
                               else ValidFrom user)
        /\ Name stored = Name user /\ ContactInfo stored = ContactInfo user
        /\ UserLevel stored = UserLevel user /\ Codes stored = Codes user
        /\ Rest stored = Rest user
        /\ ((exists result w',
               AddNewUser authentication_code user w = Ret result w'
               /\ (result = (true, "") /\ appendError (files w) = None
                   \/ exists text, result = (false, text)
                                   /\ appendError (files w) = Some text)
               /\ forall code, code ∈ Codes user ->
                    validUsers (self w') !! code = Some stored)
            \/ (AddNewUser authentication_code user w = Crash NilDereference
                /\ appendError (files w) = None
                /\ statResult (WriteCSVFlush stored (files w)).2 = None))).
Proof.
  intros Hfree sponsor now next.
  assert (forall s, sponsor = Some s -> UserLevel s <> LevelMember ->
            AddNewUser authentication_code user w
            = Ret (false, "Non-member AddNewUser attempt") w) as Hnonmember.
  { intros s Hs Hlevel. unfold AddNewUser, mbind, M_bind, bind.
    rewrite findUserSynchronized_eq by done. fold sponsor. rewrite Hs.
    by rewrite bool_decide_eq_false_2. }
  assert (forall s, sponsor = Some s -> UserLevel s = LevelMember ->
            InValidityPeriod s now = false ->
            AddNewUser authentication_code user w
            = Ret (false, "Auth-Member not in valid time-frame")
                {| self := self w; files := files w;
                   clockTicks := S (clockTicks w) |}) as Hinvalid.
  { intros s Hs Hlevel Hout. unfold AddNewUser, mbind, M_bind, bind.
    rewrite findUserSynchronized_eq by done. fold sponsor. rewrite Hs.
    rewrite bool_decide_eq_true_2 by done. unfold Now. cbn [negb].
    fold now. by rewrite Hout. }
  split_and!.
  - intros Hnone. unfold AddNewUser, mbind, M_bind, bind.
    rewrite findUserSynchronized_eq by done. fold sponsor. by rewrite Hnone.
  - exact Hnonmember.
  - intros s Hs Hlevel Hout. eexists. split; [by eapply Hinvalid|done].
  - intros reason w' Hok. destruct sponsor as [s|] eqn:Hs.
    + exists s. split; [done|].
      destruct (decide (UserLevel s = LevelMember)) as [Hlevel|Hlevel].
      * split; [done|].
        destruct (InValidityPeriod s now) eqn:Hin; [done|].
        rewrite (Hinvalid s) in Hok by done. discriminate.
      * rewrite (Hnonmember s) in Hok by done. discriminate.
    + unfold AddNewUser, mbind, M_bind, bind in Hok.
      rewrite findUserSynchronized_eq in Hok by done. fold sponsor in Hok.
      rewrite Hs in Hok. discriminate.
  - intros s Hs Hlevel Hin Hfresh.
    exists (candidateToStore authentication_code next user).
    destruct (candidateToStore_fields authentication_code next user)
      as (? & ? & ? & ? & ? & ? & ?).
    split_and!; [done..|].
    rewrite (AddNewUser_eq authentication_code user s) by done.
    rewrite Hfresh. fold next.
    destruct (appendError (files w)) as [text|].
    + left. eexists _, _. split; [done|]. split; [right; by exists text|].
      intros code Hcode. simpl. by apply setCodes_in.
    + cbv zeta.
      destruct (statResult _) as [modTime|] eqn:Hstat.
      * left. eexists _, _. split; [done|]. split; [by left|].
        intros code Hcode. simpl. by apply setCodes_in.
      * by right.
Qed.

(** The failure [AddNewUser] does report: when, after a successful
    insert in memory, the user file cannot be opened for appending, it
    rejects with the text of that error and the insert is not rolled
    back: the candidate, as stored, is returned by [FindUser] for every
    plain code whose hash is one of its codes. *)
Theorem AddNewUser_open_error_keeps_insert (authentication_code : string)
    (user sponsor : User) (text : string) (w : World) :
  validUsersLock (self w) = false ->
  validUsers (self w) !! hashAuthCode authentication_code = Some sponsor ->
  UserLevel sponsor = LevelMember ->
  InValidityPeriod sponsor (clock (self w) (clockTicks w)) = true ->
  codeInUse (validUsers (self w)) (Codes user) = false ->
  appendError (files w) = Some text ->
  exists w',
    AddNewUser authentication_code user w = Ret (false, text) w'
    /\ forall plain_code,
         hashAuthCode plain_code ∈ Codes user ->
         FindUser plain_code w'
         = Ret (Some (candidateToStore authentication_code
                        (clock (self w) (S (clockTicks w))) user)) w'.
Proof.
  intros Hfree Hsponsor Hlevel Hvalid Hfresh Herr.
  rewrite (AddNewUser_eq authentication_code user sponsor) by done.
  rewrite Hfresh, Herr. eexists. split; [done|].
  intros plain_code Hcode. unfold FindUser, mbind, M_bind, bind.
  rewrite findUserSynchronized_eq by done. simpl.
  by rewrite setCodes_in.
Qed.

(** ** Denials without a reason *)

(** A legacy user inside the validity period and inside the daytime hours
    who asks for a target other than the downstairs one is denied with an
    empty reason. *)
Lemma AuthUser_legacy_wrong_target (code : string) (target : Target)
    (user : User) (w : World) :
  levels_distinct ->
  (6 <= String.length code)%nat ->
  validUsersLock (self w) = false ->
  statResult (files w) = Some (fileTimestamp (self w)) ->
  validUsers (self w) !! hashAuthCode code = Some user ->
  UserLevel user = LevelLegacy ->
  InValidityPeriod user (clock (self w) (clockTicks w)) = true ->
  11 <= Hour (clock (self w) (S (clockTicks w))) < 22 ->
  target <> TargetDownstairs ->
  AuthUser code target w
  = Ret (false, "") {| self := self w; files := files w;
                       clockTicks := S (S (clockTicks w)) |}.
Proof.
  intros Hdistinct Hlong Hfree Hstat Hfound Hlevel Hvalid Hhour Htarget.
  destruct (levels_distinct_ne Hdistinct)
    as (? & ? & ? & ? & ? & ? & ? & ? & ? & ?).
  unfold AuthUser, hasMinimalCodeRequirements.
  destruct (Nat.leb_spec 6 (String.length code)); [|lia]. cbn [negb].
  unfold mbind, M_bind, bind.
  rewrite reloadIfChanged_eq, Hstat, decide_True by done.
  rewrite findUserSynchronized_eq, Hfound, Hlevel by done.
  rewrite bool_decide_eq_false_2 by done.
  unfold Now at 1. rewrite Hvalid. cbn [negb].
  unfold levelHasAccess, isUserDaytime.
  rewrite !decide_False, decide_True by done. run.
  destruct (Z.leb_spec 11 (Hour (clock (self w) (S (clockTicks w)))));
    [|lia].
  destruct (Z.ltb_spec (Hour (clock (self w) (S (clockTicks w)))) 22);
    [|lia].
  simpl. by rewrite bool_decide_eq_false_2.
Qed.

End Proofs.

(** * Further properties of the table *)

Section Table.
Context {Ty : Types} {Collab : Collaborators}.

Lemma setCodes_inv (user : User) (codes : list string)
    (users : gmap string User) (code : string) (found : User) :
  setCodes user codes users !! code = Some found ->
  (code ∈ codes /\ found = user) \/ users !! code = Some found.
Proof.
  destruct (decide (code ∈ codes)) as [Hin|Hnot].
  - rewrite setCodes_in by done. intros [= <-]. by left.
  - rewrite setCodes_notin by done. by right.
Qed.



(** Every entry loading adds comes from a record read, under one of the
    codes of that record. *)
Lemma loadUsers_inv (records : list (option User))
    (users : gmap string User) (code : string) (user : User) :
  loadUsers records users !! code = Some user ->
  users !! code = Some user \/ (Some user ∈ records /\ code ∈ Codes user).
Proof.
  revert users. induction records as [|[next|] records IH];
    intros users Hset; simpl in Hset.
  - by left.
  - apply IH in Hset as [Hset|[Hin Hcode]].
    + destruct (codeInUse users (Codes next)); [by left|].
      apply setCodes_inv in Hset as [[Hcode ->]|Hset]; [|by left].
      right. split; [left|done].
    + right. split; [by right|done].
  - apply IH in Hset as [Hset|[Hin Hcode]]; [by left|].
    right. split; [by right|done].
Qed.

Lemma fullyIndexed_empty : fullyIndexed (∅ : gmap string User).
Proof. intros code user Hset. by rewrite lookup_empty in Hset. Qed.

Lemma fullyIndexed_setCodes (user : User) (users : gmap string User) :
  fullyIndexed users ->
  codeInUse users (Codes user) = false ->
  fullyIndexed (setCodes user (Codes user) users).
Proof.
  intros Hindexed Hfresh code found Hset.
  rewrite codeInUse_false in Hfresh.
  apply setCodes_inv in Hset as [[Hcode ->]|Hset].
  - split; [done|]. intros code' Hcode'. by apply setCodes_in.
  - destruct (Hindexed code found Hset) as [Hcode Hall].
    split; [done|]. intros code' Hcode'.
    rewrite setCodes_notin; [by apply Hall|].
    intros Hin. specialize (Hfresh code' Hin).
    rewrite (Hall code' Hcode') in Hfresh. discriminate.
Qed.

Lemma fullyIndexed_loadUsers (records : list (option User))
    (users : gmap string User) :
  fullyIndexed users -> fullyIndexed (loadUsers records users).
Proof.
  revert users. induction records as [|[next|] records IH];
    intros users Hindexed; simpl; [done| |by apply IH].
  apply IH. destruct (codeInUse users (Codes next)) eqn:Huse; [done|].
  by apply fullyIndexed_setCodes.
Qed.

(** The entries of a new authenticator come from the user file: each is
    a record the reader returned, filed under one of its own codes. An
    authenticator is only returned when the file opened. *)
Theorem NewFileBasedAuthenticator_entries_from_file (filename : string)
    (w w' : World) (a : FileBasedAuthenticator) :
  NewFileBasedAuthenticator filename w = Ret (Some a) w' ->
  exists records,
    openResult (files w) = Some records
    /\ forall code user,
         validUsers a !! code = Some user ->
         Some user ∈ records /\ code ∈ Codes user.
Proof.
  rewrite NewFileBasedAuthenticator_eq.
  destruct (decide (filename = "")); [done|].
  destruct (openResult (files w)) as [records|]; [|done].
  destruct (statResult (files w)); [|done].
  intros [= <- _]. exists records. split; [done|]. simpl.
  intros code user Hset.
  apply loadUsers_inv in Hset as [Hset|Hfile]; [|done].
  by rewrite lookup_empty in Hset.
Qed.

(** The table of a new authenticator is fully indexed: whatever the file
    holds, duplicates included, no record is filed under some of its
    codes only. Its mutex is free and its recorded time is the
    modification time of the file. *)
Theorem NewFileBasedAuthenticator_fully_indexed (filename : string)
    (w w' : World) (a : FileBasedAuthenticator) :
  NewFileBasedAuthenticator filename w = Ret (Some a) w' ->
  fullyIndexed (validUsers a)
  /\ validUsersLock a = false
  /\ statResult (files w) = Some (fileTimestamp a)
  /\ userFilename a = filename.
Proof.
  rewrite NewFileBasedAuthenticator_eq.
  destruct (decide (filename = "")); [done|].
  destruct (openResult (files w)) as [records|]; [|done].
  destruct (statResult (files w)); [|done].
  intros [= <- _]. simpl. split_and!; [|done..].
  apply fullyIndexed_loadUsers, fullyIndexed_empty.
Qed.


(** ** Reloading, again *)

Lemma reloadIfChanged_keeps (w w1 : World) :
  validUsersLock (self w) = false ->
  reloadIfChanged w = Ret tt w1 ->
  validUsersLock (self w1) = false
  /\ clock (self w1) = clock (self w)
  /\ clockTicks w1 = clockTicks w
  /\ files w1 = files w
  /\ userFilename (self w1) = userFilename (self w)
  /\ unlockedWrites (self w1) = unlockedWrites (self w).
Proof.
  intros Hfree. rewrite reloadIfChanged_eq, Hfree.
  repeat case_match; intros [= <-]; done.
Qed.

(** A reload settles: when [reloadIfChanged], called with the mutex
    free, returns, calling it again on the state it left changes
    nothing, whether the first call swapped the table in or gave up. *)
Theorem reloadIfChanged_idempotent (w w1 : World) :
  validUsersLock (self w) = false ->
  reloadIfChanged w = Ret tt w1 ->
  reloadIfChanged w1 = Ret tt w1.
Proof.
  intros Hfree. rewrite (reloadIfChanged_eq w), Hfree.
  destruct (statResult (files w)) as [modTime|] eqn:Hstat.
  - destruct (decide (fileTimestamp (self w) = modTime)) as [Hsame|Hnew].
    + intros [= <-]. by rewrite reloadIfChanged_eq, Hstat, decide_True.
    + destruct (decide (userFilename (self w) = "")) as [Hempty|Hname].
      * intros [= <-]. rewrite reloadIfChanged_eq, Hstat.
        by rewrite decide_False, decide_True.
      * destruct (openResult (files w)) as [records|] eqn:Hopen.
        -- intros [= <-]. rewrite reloadIfChanged_eq. simpl.
           rewrite Hstat. by rewrite decide_True.
        -- intros [= <-]. rewrite reloadIfChanged_eq, Hstat, Hopen.
           by rewrite !decide_False.
  - intros [= <-]. by rewrite reloadIfChanged_eq, Hstat.
Qed.

(** A reload that goes through replaces the table wholesale: when the
    file has a new modification time and opens, every entry of the table
    afterwards is a record of the file filed under one of its own codes,
    whatever the table held before. A record that lived in memory only is
    gone. *)
Theorem reloadIfChanged_wholesale (w : World) (modTime : Time)
    (records : list (option User)) :
  validUsersLock (self w) = false ->
  statResult (files w) = Some modTime ->
  fileTimestamp (self w) <> modTime ->
  userFilename (self w) <> "" ->
  openResult (files w) = Some records ->
  exists w1,
    reloadIfChanged w = Ret tt w1
    /\ fileTimestamp (self w1) = modTime
    /\ forall code user,
         validUsers (self w1) !! code = Some user ->
         Some user ∈ records /\ code ∈ Codes user.
Proof.
  intros Hfree Hstat Hnew Hname Hopen.
  rewrite reloadIfChanged_eq, Hstat, Hopen, Hfree.
  rewrite !decide_False by done.
  eexists. split; [done|]. simpl. split; [done|].
  intros code user Hset.
  apply loadUsers_inv in Hset as [Hset|Hfile]; [|done].
  by rewrite lookup_empty in Hset.
Qed.

(** ** The policy, again *)

Lemma granted_FulltimeUser (target : Target) (w : World) :
  levels_distinct ->
  granted (levelHasAccess LevelFulltimeUser target w)
  = (7 <=? Hour (clock (self w) (clockTicks w)))
    && (Hour (clock (self w) (clockTicks w)) <=? 23).
Proof.
  intros Hdistinct.
  destruct (levels_distinct_ne Hdistinct)
    as (? & ? & ? & ? & ? & ? & ? & ? & ? & ?).
  unfold levelHasAccess, isFulltimeUserDaytime.
  rewrite decide_False, decide_True by done. run.
  by destruct (_ && _).
Qed.

Lemma granted_User (target : Target) (w : World) :
  levels_distinct ->
  granted (levelHasAccess LevelUser target w)
  = (11 <=? Hour (clock (self w) (clockTicks w)))
    && (Hour (clock (self w) (clockTicks w)) <? 22).
Proof.
  intros Hdistinct.
  destruct (levels_distinct_ne Hdistinct)
    as (? & ? & ? & ? & ? & ? & ? & ? & ? & ?).
  unfold levelHasAccess, isUserDaytime.
  rewrite !decide_False, decide_True by done. run.
  by destruct (_ && _).
Qed.

Lemma granted_Legacy (target : Target) (w : World) :
  levels_distinct ->
  granted (levelHasAccess LevelLegacy target w)
  = (11 <=? Hour (clock (self w) (clockTicks w)))
    && (Hour (clock (self w) (clockTicks w)) <? 22)
    && bool_decide (target = TargetDownstairs).
Proof.
  intros Hdistinct.
  destruct (levels_distinct_ne Hdistinct)
    as (? & ? & ? & ? & ? & ? & ? & ? & ? & ?).
  unfold levelHasAccess, isUserDaytime.
  rewrite !decide_False, decide_True by done. run.
  by destruct (_ && _).
Qed.

(** The levels are nested: at one reading of the clock and for one
    target, whoever a legacy user's level lets in, a regular user's level
    lets in; a regular user's, a full-time user's; and a full-time
    user's, a member's. *)
Theorem levelHasAccess_nested (target : Target) (w : World) :
  levels_distinct ->
  (granted (levelHasAccess LevelLegacy target w) = true ->
   granted (levelHasAccess LevelUser target w) = true)
  /\ (granted (levelHasAccess LevelUser target w) = true ->
      granted (levelHasAccess LevelFulltimeUser target w) = true)
  /\ (granted (levelHasAccess LevelFulltimeUser target w) = true ->
      granted (levelHasAccess LevelMember target w) = true).
Proof.
  intros Hdistinct.
  rewrite granted_Legacy, granted_User, granted_FulltimeUser by done.
  split_and!.
  - by intros [Hday _]%andb_true_iff.
  - rewrite !andb_true_iff, !Z.leb_le, Z.ltb_lt. lia.
  - intros _. unfold levelHasAccess. by rewrite decide_True.
Qed.

Lemma levelHasAccess_shape (level : Level) (target : Target) (w : World) :
  exists ok reason w',
    levelHasAccess level target w = Ret (ok, reason) w'
    /\ self w' = self w /\ files w' = files w
    /\ (ok = true -> reason = "").
Proof.
  unfold levelHasAccess, isFulltimeUserDaytime, isUserDaytime.
  repeat case_decide; run;
    repeat match goal with
           | |- context [negb ?b] => destruct b eqn:?; simpl
           end; eexists _, _, _; (split; [done|]); done.
Qed.

(** ** AuthUser, again *)

(** [AuthUser] on a code of at least six bytes, once the reload is over. *)
Lemma AuthUser_eq (code : string) (target : Target) (w w1 : World) :
  (6 <= String.length code)%nat ->
  validUsersLock (self w) = false ->
  reloadIfChanged w = Ret tt w1 ->
  AuthUser code target w
  = match validUsers (self w1) !! hashAuthCode code with
    | None => Ret (false, "No user for code") w1
    | Some user =>
        if bool_decide (UserLevel user = LevelHiatus)
        then Ret (false, "User on hiatus '" +:+ Name user +:+ " <"
                         +:+ ContactInfo user +:+ ">'") w1
        else if InValidityPeriod user (clock (self w) (clockTicks w))
             then levelHasAccess (UserLevel user) target (ticked w1)
             else Ret (false, "Code not valid yet/expired") (ticked w1)
    end.
Proof.
  intros Hlong Hfree Hreload.
  destruct (reloadIfChanged_keeps w w1 Hfree Hreload)
    as (Hfree1 & Hclock & Hticks & _).
  unfold AuthUser, hasMinimalCodeRequirements.
  destruct (Nat.leb_spec 6 (String.length code)); [|lia]. cbn [negb].
  unfold mbind, M_bind, bind. rewrite Hreload.
  rewrite findUserSynchronized_eq by done.
  destruct (validUsers (self w1) !! hashAuthCode code) as [user|]; [|done].
  destruct (bool_decide (UserLevel user = LevelHiatus)); [done|].
  unfold Now at 1. rewrite <- Hclock, <- Hticks. cbn [negb].
  by destruct (InValidityPeriod user _).
Qed.

(** When [AuthUser] grants: called with the mutex free, it grants exactly
    when the code has at least six bytes, the table holds a record for
    its hash once the reload is over, that record is not on hiatus, it is
    inside its validity period at the first reading of the clock, and
    [levelHasAccess] grants its level at the next reading. A grant
    always comes with the empty message. *)
Theorem AuthUser_grants_iff (code : string) (target : Target) (w : World) :
  validUsersLock (self w) = false ->
  exists w1,
    reloadIfChanged w = Ret tt w1
    /\ (granted (AuthUser code target w) = true
        <-> (6 <= String.length code)%nat
            /\ exists user,
                 validUsers (self w1) !! hashAuthCode code = Some user
                 /\ UserLevel user <> LevelHiatus
                 /\ InValidityPeriod user (clock (self w) (clockTicks w))
                    = true
                 /\ granted (levelHasAccess (UserLevel user) target
                               (ticked w1)) = true)
    /\ (forall reason w',
          AuthUser code target w = Ret (true, reason) w' -> reason = "").
Proof.
  intros Hfree.
  destruct (reloadIfChanged_returns w Hfree) as (w1 & Hreload & _).
  exists w1. split; [done|].
  destruct (Nat.leb_spec 6 (String.length code)) as [Hlong|Hshort].
  - rewrite (AuthUser_eq code target w w1) by done.
    destruct (validUsers (self w1) !! hashAuthCode code) as [user|].
    + destruct (bool_decide_reflect (UserLevel user = LevelHiatus))
        as [Hhiatus|Hhiatus].
      * split; [|done]. split; [done|].
        intros (_ & found & [= <-] & Hnot & _). done.
      * destruct (InValidityPeriod user _) eqn:Hvalid.
        -- split.
           ++ split.
              ** intros Hgrant. split; [done|]. by exists user.
              ** by intros (_ & found & [= <-] & _ & _ & Hgrant).
           ++ intros reason w' Hrun.
              destruct (levelHasAccess_shape (UserLevel user) target
                          (ticked w1))
                as (ok & msg & w2 & Hlevel & _ & _ & Hmsg).
              rewrite Hlevel in Hrun. injection Hrun as -> <- _.
              by apply Hmsg.
        -- split; [|done]. split; [done|].
           intros (_ & found & [= <-] & _ & Hin & _). congruence.
    + split; [|done]. split; [done|]. by intros (_ & found & ? & _).
  - unfold AuthUser, hasMinimalCodeRequirements.
    destruct (Nat.leb_spec 6 (String.length code)); [lia|]. simpl.
    split; [|done]. split; [done|]. intros [? _]. lia.
Qed.

(** What [AuthUser] leaves behind: whenever it returns, called with the
    mutex free, the mutex is free again, the user file is as it was, no
    write was made outside the mutex, and the authenticator is the one it
    found or the one [reloadIfChanged] left. *)
Theorem AuthUser_effects (code : string) (target : Target) (w w' : World)
    (result : bool * string) :
  validUsersLock (self w) = false ->
  AuthUser code target w = Ret result w' ->
  (self w' = self w
   \/ exists w1, reloadIfChanged w = Ret tt w1 /\ self w' = self w1)
  /\ files w' = files w
  /\ validUsersLock (self w') = false
  /\ unlockedWrites (self w') = unlockedWrites (self w).
Proof.
  intros Hfree.
  destruct (Nat.leb_spec 6 (String.length code)) as [Hlong|Hshort].
  - destruct (reloadIfChanged_returns w Hfree) as (w1 & Hreload & _).
    destruct (reloadIfChanged_keeps w w1 Hfree Hreload)
      as (Hfree1 & _ & _ & Hfiles & _ & Hwrites).
    rewrite (AuthUser_eq code target w w1) by done.
    destruct (validUsers (self w1) !! hashAuthCode code) as [user|];
      [|intros [= <- <-]; split_and!; [right; by exists w1|done..]].
    destruct (bool_decide (UserLevel user = LevelHiatus));
      [intros [= <- <-]; split_and!; [right; by exists w1|done..]|].
    destruct (InValidityPeriod user _);
      [|intros [= <- <-]; split_and!; [right; by exists w1|done..]].
    destruct (levelHasAccess_shape (UserLevel user) target (ticked w1))
      as (ok & msg & w2 & -> & Hself & Hfiles2 & _).
    intros [= <- <-]. rewrite Hself, Hfiles2.
    split_and!; [right; by exists w1|done..].
  - unfold AuthUser, hasMinimalCodeRequirements.
    destruct (Nat.leb_spec 6 (String.length code)); [lia|].
    intros [= <- <-]. split_and!; [by left|done..].
Qed.

(** The two generic denials: for a code of at least six bytes, when the
    table holds no record for its hash once the reload is over,
    [AuthUser] denies with the no-user reason and the clock is not read;
    when the record found is not on hiatus and is outside its validity
    period, it denies as not valid or expired, whatever the level, a
    member's included, and the policy is not consulted. *)
Theorem AuthUser_generic_denials (code : string) (target : Target)
    (w : World) :
  (6 <= String.length code)%nat ->
  validUsersLock (self w) = false ->
  exists w1,
    reloadIfChanged w = Ret tt w1
    /\ (validUsers (self w1) !! hashAuthCode code = None ->
        AuthUser code target w = Ret (false, "No user for code") w1)
    /\ (forall user,
          validUsers (self w1) !! hashAuthCode code = Some user ->
          UserLevel user <> LevelHiatus ->
          InValidityPeriod user (clock (self w) (clockTicks w)) = false ->
          AuthUser code target w
          = Ret (false, "Code not valid yet/expired") (ticked w1)).
Proof.
  intros Hlong Hfree.
  destruct (reloadIfChanged_returns w Hfree) as (w1 & Hreload & _).
  exists w1. split; [done|].
  rewrite (AuthUser_eq code target w w1) by done. split.
  - by intros ->.
  - intros user -> Hlevel Hout.
    by rewrite bool_decide_eq_false_2, Hout.
Qed.

(** ** The table under every operation *)

(** Looking up and adding compose: [FindUser] returns the entry filed
    under the hash of the code, nil when there is none, and leaves the
    state alone; and once [addUserSynchronized] has returned true for a
    record, [FindUser] returns that record for every plain code whose
    hash is one of its codes. *)
Theorem FindUser_after_add (user : User) (w : World) :
  validUsersLock (self w) = false ->
  (forall plain_code,
     FindUser plain_code w
     = Ret (validUsers (self w) !! hashAuthCode plain_code) w)
  /\ (forall w',
        addUserSynchronized user w = Ret true w' ->
        forall plain_code,
          hashAuthCode plain_code ∈ Codes user ->
          FindUser plain_code w' = Ret (Some user) w').
Proof.
  intros Hfree.
  assert (forall v : World, validUsersLock (self v) = false ->
            forall plain_code,
              FindUser plain_code v
              = Ret (validUsers (self v) !! hashAuthCode plain_code) v)
    as Hfind.
  { intros v Hv plain_code. unfold FindUser, mbind, M_bind, bind.
    rewrite findUserSynchronized_eq by done. by destruct (_ !! _). }
  split; [by apply Hfind|].
  intros w'. rewrite addUserSynchronized_eq by done.
  destruct (codeInUse _ _); [done|]. intros [= <-] plain_code Hcode.
  rewrite Hfind by done. simpl. by rewrite setCodes_in.
Qed.

(** ** Adding a user, again *)

Lemma AddNewUser_no_sponsor (authentication_code : string) (user : User)
    (w : World) :
  validUsersLock (self w) = false ->
  validUsers (self w) !! hashAuthCode authentication_code = None ->
  AddNewUser authentication_code user w
  = Ret (false, "Couldn't find member with authentication code") w.
Proof.
  intros Hfree Hnone. unfold AddNewUser, mbind, M_bind, bind.
  by rewrite findUserSynchronized_eq, Hnone.
Qed.

Lemma AddNewUser_non_member (authentication_code : string)
    (user sponsor : User) (w : World) :
  validUsersLock (self w) = false ->
  validUsers (self w) !! hashAuthCode authentication_code = Some sponsor ->
  UserLevel sponsor <> LevelMember ->
  AddNewUser authentication_code user w
  = Ret (false, "Non-member AddNewUser attempt") w.
Proof.
  intros Hfree Hsponsor Hlevel. unfold AddNewUser, mbind, M_bind, bind.
  rewrite findUserSynchronized_eq, Hsponsor by done.
  by rewrite bool_decide_eq_false_2.
Qed.

Lemma AddNewUser_sponsor_invalid (authentication_code : string)
    (user sponsor : User) (w : World) :
  validUsersLock (self w) = false ->
  validUsers (self w) !! hashAuthCode authentication_code = Some sponsor ->
  UserLevel sponsor = LevelMember ->
  InValidityPeriod sponsor (clock (self w) (clockTicks w)) = false ->
  AddNewUser authentication_code user w
  = Ret (false, "Auth-Member not in valid time-frame") (ticked w).
Proof.
  intros Hfree Hsponsor Hlevel Hout. unfold AddNewUser, mbind, M_bind, bind.
  rewrite findUserSynchronized_eq, Hsponsor by done.
  rewrite bool_decide_eq_true_2 by done. unfold Now. cbn [negb].
  by rewrite Hout.
Qed.

(** Case analysis on the sponsor checks of a call of [AddNewUser]. *)
Ltac sponsor_cases code user w Hfree :=
  let s := fresh "sponsor" in
  let Hsponsor := fresh "Hsponsor" in
  let Hmember := fresh "Hmember" in
  let Hvalid := fresh "Hvalid" in
  destruct (validUsers (self w) !! hashAuthCode code) as [s|] eqn:Hsponsor;
  [ destruct (decide (UserLevel s = LevelMember)) as [Hmember|Hmember];
    [ destruct (InValidityPeriod s (clock (self w) (clockTicks w)))
        eqn:Hvalid;
      [ rewrite (AddNewUser_eq code user s w Hfree Hsponsor Hmember Hvalid)
      | rewrite (AddNewUser_sponsor_invalid code user s w Hfree Hsponsor
                   Hmember Hvalid) ]
    | rewrite (AddNewUser_non_member code user s w Hfree Hsponsor Hmember) ]
  | rewrite (AddNewUser_no_sponsor code user w Hfree Hsponsor) ].

Lemma Codes_candidateToStore (authentication_code : string) (now : Time)
    (user : User) :
  Codes (candidateToStore authentication_code now user) = Codes user.
Proof. unfold candidateToStore. simpl. by destruct (IsZero _). Qed.

(** [AddNewUser] cannot take a code over: whenever it returns, from a
    free mutex, every code that was filed still maps to the same record,
    the mutex is free again, and unless the answer is ok the user file
    has not been touched. *)
Theorem AddNewUser_keeps_entries (authentication_code : string)
    (user : User) (w w' : World) (result : bool * string) :
  validUsersLock (self w) = false ->
  AddNewUser authentication_code user w = Ret result w' ->
  (forall code found,
     validUsers (self w) !! code = Some found ->
     validUsers (self w') !! code = Some found)
  /\ validUsersLock (self w') = false
  /\ (result.1 = false -> files w' = files w).
Proof.
  intros Hfree.
  assert (forall stored code found,
            codeInUse (validUsers (self w)) (Codes user) = false ->
            validUsers (self w) !! code = Some found ->
            setCodes stored (Codes user) (validUsers (self w)) !! code
            = Some found) as Hkept.
  { intros stored code found Hfresh Hset.
    rewrite setCodes_notin; [done|]. intros Hin.
    rewrite codeInUse_false in Hfresh.
    rewrite (Hfresh code Hin) in Hset. discriminate. }
  sponsor_cases authentication_code user w Hfree;
    try (intros [= <- <-]; done).
  destruct (codeInUse _ _) eqn:Hfresh; [intros [= <- <-]; done|].
  destruct (appendError (files w)) as [text|].
  - intros [= <- <-]. simpl. split_and!; [|done..].
    intros code found. by apply Hkept.
  - cbv zeta. destruct (statResult _); [|done].
    intros [= <- <-]. simpl. split_and!; [|done..].
    intros code found. by apply Hkept.
Qed.

(** [AddNewUser] does not provoke a reload of its own write: when it
    returns ok, the message is empty, the mutex is free, the recorded
    time is the modification time the file has after the write, and
    [reloadIfChanged] on the state it left changes nothing. *)
Theorem AddNewUser_ok_no_reload (authentication_code : string)
    (user : User) (w w' : World) (reason : string) :
  validUsersLock (self w) = false ->
  AddNewUser authentication_code user w = Ret (true, reason) w' ->
  reason = ""
  /\ validUsersLock (self w') = false
  /\ statResult (files w') = Some (fileTimestamp (self w'))
  /\ reloadIfChanged w' = Ret tt w'.
Proof.
  intros Hfree.
  sponsor_cases authentication_code user w Hfree; try done.
  destruct (codeInUse _ _); [done|].
  destruct (appendError (files w)); [done|].
  cbv zeta. destruct (statResult _) as [modTime|] eqn:Hstat; [|done].
  intros [= <- <-]. split_and!; [done..|].
  rewrite reloadIfChanged_eq. simpl. rewrite Hstat.
  by rewrite decide_True.
Qed.

(** The same codes cannot be provisioned twice: once [AddNewUser] has
    returned ok for a candidate, a further call by the same sponsor,
    still inside its validity period, for a candidate that shares a code
    with the first one is rejected as a duplicate, and neither the
    authenticator nor the user file changes. *)
Theorem AddNewUser_twice (authentication_code : string)
    (user again : User) (w w1 : World) (reason : string) (code : string) :
  validUsersLock (self w) = false ->
  AddNewUser authentication_code user w = Ret (true, reason) w1 ->
  code ∈ Codes user ->
  code ∈ Codes again ->
  (forall sponsor,
     validUsers (self w) !! hashAuthCode authentication_code = Some sponsor ->
     InValidityPeriod sponsor (clock (self w1) (clockTicks w1)) = true) ->
  exists w2,
    AddNewUser authentication_code again w1
    = Ret (false, "Duplicate codes while adding user") w2
    /\ self w2 = self w1 /\ files w2 = files w1.
Proof.
  intros Hfree Hfirst Hcode Hagain Hstill. revert Hfirst.
  sponsor_cases authentication_code user w Hfree; try done.
  destruct (codeInUse _ _) eqn:Hfresh; [done|].
  destruct (appendError (files w)); [done|].
  cbv zeta. destruct (statResult _) as [modTime|]; [|done].
  intros [= <- <-].
  set (stored := candidateToStore authentication_code
                   (clock (self w) (S (clockTicks w))) user).
  set (w1 := {| self := _; files := _; clockTicks := _ |}).
  assert (validUsers (self w1) !! hashAuthCode authentication_code
          = Some sponsor) as Hsponsor1.
  { simpl. rewrite setCodes_notin; [done|]. intros Hin.
    rewrite codeInUse_false in Hfresh.
    rewrite (Hfresh _ Hin) in Hsponsor. discriminate. }
  assert (codeInUse (validUsers (self w1)) (Codes again) = true) as Hused.
  { apply codeInUse_true. exists code. split; [done|]. simpl.
    by rewrite setCodes_in. }
  rewrite (AddNewUser_eq authentication_code again sponsor w1);
    [|done|done|done|by apply Hstill].
  rewrite Hused. by eexists.
Qed.

(** A candidate without codes: when the sponsor passes and the file
    takes the record, [AddNewUser] returns ok and the record is written
    to the file, yet the table is as it was: nothing in memory leads to
    the new record. *)
Theorem AddNewUser_without_codes (authentication_code : string)
    (user sponsor : User) (modTime : Time) (w : World) :
  validUsersLock (self w) = false ->
  validUsers (self w) !! hashAuthCode authentication_code = Some sponsor ->
  UserLevel sponsor = LevelMember ->
  InValidityPeriod sponsor (clock (self w) (clockTicks w)) = true ->
  Codes user = [] ->
  appendError (files w) = None ->
  let stored :=
    candidateToStore authentication_code
      (clock (self w) (S (clockTicks w))) user in
  statResult (WriteCSVFlush stored (files w)).2 = Some modTime ->
  exists w',
    AddNewUser authentication_code user w = Ret (true, "") w'
    /\ validUsers (self w') = validUsers (self w)
    /\ files w' = (WriteCSVFlush stored (files w)).2.
Proof.
  intros Hfree Hsponsor Hlevel Hvalid Hnone Hopen stored Hstat.
  rewrite (AddNewUser_eq authentication_code user sponsor) by done.
  rewrite Hnone, Hopen. cbv zeta. fold stored. rewrite Hstat.
  by eexists.
Qed.

(** Every operation keeps the table fully indexed: from a free mutex and
    a fully indexed table, whenever [addUserSynchronized],
    [reloadIfChanged], [AddNewUser] or [AuthUser] returns, the table it
    leaves is fully indexed. *)
Theorem fullyIndexed_preserved (w : World) :
  validUsersLock (self w) = false ->
  fullyIndexed (validUsers (self w)) ->
  (forall user ok w',
     addUserSynchronized user w = Ret ok w' ->
     fullyIndexed (validUsers (self w')))
  /\ (forall w', reloadIfChanged w = Ret tt w' ->
                 fullyIndexed (validUsers (self w')))
  /\ (forall authentication_code user result w',
        AddNewUser authentication_code user w = Ret result w' ->
        fullyIndexed (validUsers (self w')))
  /\ (forall code target result w',
        AuthUser code target w = Ret result w' ->
        fullyIndexed (validUsers (self w'))).
Proof.
  intros Hfree Hindexed.
  assert (forall w', reloadIfChanged w = Ret tt w' ->
                     fullyIndexed (validUsers (self w'))) as Hreload.
  { intros w'. rewrite reloadIfChanged_eq, Hfree.
    repeat case_match; intros [= <-]; try done.
    apply fullyIndexed_loadUsers, fullyIndexed_empty. }
  split_and!.
  - intros user ok w'. rewrite addUserSynchronized_eq by done.
    destruct (codeInUse _ _) eqn:Hfresh; intros [= <- <-]; [done|].
    by apply fullyIndexed_setCodes.
  - exact Hreload.
  - intros authentication_code user result w'.
    sponsor_cases authentication_code user w Hfree;
      try (intros [= <- <-]; done).
    destruct (codeInUse _ _) eqn:Hfresh; [intros [= <- <-]; done|].
    assert (fullyIndexed
              (setCodes
                 (candidateToStore authentication_code
                    (clock (self w) (S (clockTicks w))) user)
                 (Codes user) (validUsers (self w)))) as Hnew.
    { pose proof (Codes_candidateToStore authentication_code
                    (clock (self w) (S (clockTicks w))) user) as Hcodes.
      set (stored := candidateToStore _ _ _) in *.
      rewrite <- Hcodes. apply fullyIndexed_setCodes; [done|].
      by rewrite Hcodes. }
    destruct (appendError (files w)); [intros [= <- <-]; done|].
    cbv zeta. destruct (statResult _); [|done].
    by intros [= <- <-].
  - intros code target result w'.
    destruct (reloadIfChanged_returns w Hfree) as (w1 & Hrun & _).
    destruct (Nat.leb_spec 6 (String.length code)) as [Hlong|Hshort].
    + rewrite (AuthUser_eq code target w w1) by done.
      specialize (Hreload w1 Hrun).
      repeat case_match; try (intros [= <- <-]; done).
      destruct (levelHasAccess_shape (UserLevel u) target (ticked w1))
        as (ok & msg & w2 & -> & Hself & _).
      intros [= <- <-]. by rewrite Hself.
    + unfold AuthUser, hasMinimalCodeRequirements.
      destruct (Nat.leb_spec 6 (String.length code)); [lia|].
      by intros [= <- <-].
Qed.

(** ** Construction *)

(** How [NewFileBasedAuthenticator] ends: it returns nil when the file
    name is empty or the file does not open; when the file opens but
    cannot be inspected it dereferences nil; and whenever it returns it
    leaves the caller's state as it was. *)
Theorem NewFileBasedAuthenticator_outcomes (filename : string) (w : World) :
  (filename = "" \/ openResult (files w) = None ->
   NewFileBasedAuthenticator filename w = Ret None w)
  /\ (filename <> "" -> is_Some (openResult (files w)) ->
      statResult (files w) = None ->
      NewFileBasedAuthenticator filename w = Crash NilDereference)
  /\ (filename <> "" -> is_Some (openResult (files w)) ->
      is_Some (statResult (files w)) ->
      exists a, NewFileBasedAuthenticator filename w = Ret (Some a) w)
  /\ (forall result w',
        NewFileBasedAuthenticator filename w = Ret result w' -> w' = w).
Proof.
  rewrite NewFileBasedAuthenticator_eq. split_and!.
  - intros [-> | ->]; [done|]. by case_decide.
  - intros Hname [records ->] ->. by rewrite decide_False.
  - intros Hname [records ->] [modTime ->]. rewrite decide_False by done.
    by eexists.
  - intros result w'. repeat case_match; congruence.
Qed.

(** ** Keys and digests *)

Lemma digit_inj (n m : Z) :
  0 <= n < 16 -> 0 <= m < 16 -> Hex.digit n = Hex.digit m -> n = m.
Proof.
  intros Hn Hm Heq. unfold Hex.digit in Heq.
  assert (List.NoDup Hex.hextable) as Hnodup
    by (apply NoDup_ListNoDup; compute_done).
  apply (proj1 (List.NoDup_nth Hex.hextable "0"%char) Hnodup) in Heq;
    [lia|simpl; lia..].
Qed.

Lemma byte_nibbles (b : Z) :
  0 <= b < 256 ->
  0 <= Z.shiftr b 4 < 16 /\ 0 <= Z.land b 15 < 16
  /\ b = 16 * Z.shiftr b 4 + Z.land b 15.
Proof.
  intros Hb. rewrite Z.shiftr_div_pow2 by lia.
  change 15 with (Z.ones 4). rewrite Z.land_ones by lia.
  change (2 ^ 4) with 16.
  pose proof (Z.div_mod b 16). pose proof (Z.mod_pos_bound b 16).
  split_and!; lia.
Qed.

Lemma EncodeToString_inj (l1 l2 : list Z) :
  Forall (fun b => 0 <= b < 256) l1 ->
  Forall (fun b => 0 <= b < 256) l2 ->
  Hex.EncodeToString l1 = Hex.EncodeToString l2 -> l1 = l2.
Proof.
  intros H1. revert l2.
  induction H1 as [|b1 l1 Hb1 _ IH]; intros l2 H2 Heq;
    destruct H2 as [|b2 l2 Hb2 H2]; simpl in Heq; try done.
  injection Heq as Hhigh Hlow Hrest.
  destruct (byte_nibbles b1 Hb1) as (? & ? & ->).
  destruct (byte_nibbles b2 Hb2) as (? & ? & ->).
  apply digit_inj in Hhigh; [|done..]. apply digit_inj in Hlow; [|done..].
  rewrite Hhigh, Hlow. f_equal. by apply IH.
Qed.

(** The hexadecimal encoding loses nothing: two plain codes get the same
    key exactly when their salted MD5 digests are equal. *)
Theorem hashAuthCode_eq_iff_digest (plain1 plain2 : string) :
  hashAuthCode plain1 = hashAuthCode plain2
  <-> MD5.sum (bytes_of_string (hashSalt +:+ plain1))
      = MD5.sum (bytes_of_string (hashSalt +:+ plain2)).
Proof.
  unfold hashAuthCode. split; [|by intros ->].
  apply EncodeToString_inj; apply sum_range.
Qed.

End Table.

(** * The authenticator at work *)

Section Runs.
#[local] Existing Instance Fixture.types.
#[local] Existing Instance Fixture.collab.

(** C8: a denial can come without a reason. Gus is a legacy user whose
    record is valid; at three in the afternoon he presents his card at a
    door other than the downstairs one: [AuthUser] denies and the reason
    is the empty string. *)
Theorem AuthUser_denies_without_reason :
  validUsers (self Fixture.world) !! hashAuthCode "gus-card"
  = Some Fixture.gus
  /\ UserLevel Fixture.gus = LevelLegacy
  /\ returned (AuthUser "gus-card" "upstairs" Fixture.world)
     = Some (false, "").
Proof. split_and!; reflexivity. Qed.

(** C3 does not hold for a code shorter than six bytes: Zoe is on hiatus
    and one of her codes has five bytes; [AuthUser] denies it as too
    short, and that reason does not name her. *)
Lemma AuthUser_hiatus_short_code :
  validUsers (self Fixture.world) !! hashAuthCode "12345" = Some Fixture.zoe
  /\ UserLevel Fixture.zoe = LevelHiatus
  /\ AuthUser "12345" "gate" Fixture.world
     = Ret (false, "Auth failed: too short code.") Fixture.world
  /\ ~ Contains "Auth failed: too short code." (Name Fixture.zoe).
Proof.
  split_and!; [reflexivity..|].
  intros Hin. apply Contains_stringsContains in Hin.
  vm_compute in Hin. discriminate.
Qed.

(** C5: a failure of the write is not surfaced. Ada, a member inside her
    validity period, sponsors Ned, whose code is free; the user file
    opens for appending but the disk is full, so the writer records an
    error. [AddNewUser] never reads that error and returns ok with the
    empty message, where a persistence failure should be a reject
    carrying the text of the error. *)
Theorem AddNewUser_write_error_unreported :
  (@WriteCSVFlush _ Fixture.fullDisk Fixture.storedNewbie
     (files Fixture.world)).1
  = Some "write users.csv: no space left on device"
  /\ returned (@AddNewUser _ Fixture.fullDisk "sponsor1" Fixture.newbie
                 Fixture.world)
     = Some (true, "").
Proof. split; reflexivity. Qed.

Lemma addUserSynchronized_all_or_nothing_witness :
  validUsersLock (self Fixture.world) = false
  /\ addUserSynchronized Fixture.zoe Fixture.world = Ret false Fixture.world.
Proof.
  split; [reflexivity|].
  destruct (addUserSynchronized_all_or_nothing Fixture.zoe Fixture.world
              eq_refl) as (Htaken & _ & _).
  apply Htaken. exists (hashAuthCode "zoe-card").
  split; [compute_done|]. exists Fixture.zoe. reflexivity.
Defined.

Lemma levelHasAccess_table_witness :
  levels_distinct
  /\ granted (levelHasAccess LevelFulltimeUser "upstairs" Fixture.world)
     = true.
Proof.
  assert levels_distinct as Hdistinct by compute_done.
  split; [exact Hdistinct|].
  pose proof (levelHasAccess_table (Ty := Fixture.types) "upstairs"
                Fixture.world Hdistinct) as Htable.
  cbv zeta in Htable. destruct Htable as (_ & Hfulltime & _).
  apply Hfulltime. change (7 <= 15 < 24). lia.
Defined.

Lemma AuthUser_hiatus_names_holder_witness :
  (6 <= String.length "zoe-card")%nat
  /\ validUsersLock (self Fixture.world) = false
  /\ exists reason,
       AuthUser "zoe-card" "gate" Fixture.world
       = Ret (false, reason) Fixture.world
       /\ Contains reason "Zoe" /\ Contains reason "zoe@example.org".
Proof.
  assert (6 <= String.length "zoe-card")%nat as Hlong by (simpl; lia).
  split; [exact Hlong|]. split; [reflexivity|].
  destruct (AuthUser_hiatus_names_holder (Ty := Fixture.types) "zoe-card"
              "gate" Fixture.world Hlong eq_refl) as (w1 & Hreload & _ & Hdeny).
  assert (reloadIfChanged Fixture.world = Ret tt Fixture.world) as Hsame
    by reflexivity.
  rewrite Hsame in Hreload. injection Hreload as <-.
  apply (Hdeny Fixture.zoe); reflexivity.
Defined.

Lemma AddNewUser_sponsor_gate_witness :
  validUsersLock (self Fixture.world) = false
  /\ AddNewUser "zoe-card" Fixture.newbie Fixture.world
     = Ret (false, "Non-member AddNewUser attempt") Fixture.world
  /\ exists stored,
       Sponsors stored = [hashAuthCode "sponsor1"]
       /\ ValidFrom stored = 15 * 3600.
Proof.
  split; [reflexivity|].
  pose proof (AddNewUser_sponsor_gate "zoe-card" Fixture.newbie Fixture.world
                eq_refl) as Hzoe.
  pose proof (AddNewUser_sponsor_gate "sponsor1" Fixture.newbie Fixture.world
                eq_refl) as Hada.
  cbv zeta in Hzoe, Hada.
  destruct Hzoe as (_ & Hnonmember & _).
  destruct Hada as (_ & _ & _ & _ & Hstored). split.
  - apply (Hnonmember Fixture.zoe); [reflexivity|]. compute_done.
  - destruct (Hstored Fixture.ada) as (stored & Hsponsors & Hfrom & _);
      [reflexivity..|].
    exists stored. split; [exact Hsponsors | exact Hfrom].
Defined.

Lemma AddNewUser_open_error_keeps_insert_witness :
  validUsersLock (self Fixture.readOnlyWorld) = false
  /\ validUsers (self Fixture.readOnlyWorld) !! hashAuthCode "sponsor1"
     = Some Fixture.ada
  /\ UserLevel Fixture.ada = LevelMember
  /\ InValidityPeriod Fixture.ada
       (clock (self Fixture.readOnlyWorld)
          (clockTicks Fixture.readOnlyWorld)) = true
  /\ codeInUse (validUsers (self Fixture.readOnlyWorld))
       (Codes Fixture.newbie) = false
  /\ appendError (files Fixture.readOnlyWorld)
     = Some "open users.csv: permission denied"
  /\ exists w',
       AddNewUser "sponsor1" Fixture.newbie Fixture.readOnlyWorld
       = Ret (false, "open users.csv: permission denied") w'
       /\ FindUser "newcode9" w' = Ret (Some Fixture.storedNewbie) w'.
Proof.
  assert (validUsers (self Fixture.readOnlyWorld) !! hashAuthCode "sponsor1"
          = Some Fixture.ada) as Hsponsor by reflexivity.
  assert (InValidityPeriod Fixture.ada
            (clock (self Fixture.readOnlyWorld)
               (clockTicks Fixture.readOnlyWorld)) = true) as Hvalid
    by reflexivity.
  assert (codeInUse (validUsers (self Fixture.readOnlyWorld))
            (Codes Fixture.newbie) = false) as Hfresh
    by reflexivity.
  split_and!; [reflexivity | exact Hsponsor | reflexivity | exact Hvalid
               | exact Hfresh | reflexivity |].
  destruct (AddNewUser_open_error_keeps_insert "sponsor1" Fixture.newbie
              Fixture.ada "open users.csv: permission denied"
              Fixture.readOnlyWorld eq_refl Hsponsor eq_refl Hvalid Hfresh
              eq_refl) as (w' & Hrun & Hfind).
  exists w'. split; [exact Hrun|]. apply Hfind. compute_done.
Defined.

Lemma reloadIfChanged_frame_witness :
  statResult (files Fixture.changedWorld) = Some 2000
  /\ fileTimestamp (self Fixture.changedWorld) <> 2000
  /\ NewFileBasedAuthenticator "users.csv" Fixture.changedWorld
     = Ret (Some Fixture.rebuilt) Fixture.changedWorld
  /\ validUsersLock (self Fixture.changedWorld) = false
  /\ reloadIfChanged Fixture.changedWorld
     = Ret tt (withSelf (swapped 2000 (validUsers Fixture.rebuilt)
                           (self Fixture.changedWorld))
                 Fixture.changedWorld).
Proof.
  assert (fileTimestamp (self Fixture.changedWorld) <> 2000) as Hne
    by compute_done.
  assert (NewFileBasedAuthenticator "users.csv" Fixture.changedWorld
          = Ret (Some Fixture.rebuilt) Fixture.changedWorld) as Hnew
    by reflexivity.
  split_and!; [reflexivity | exact Hne | exact Hnew | reflexivity |].
  destruct (reloadIfChanged_frame Fixture.changedWorld)
    as (_ & _ & _ & Hswap).
  destruct (Hswap 2000 Fixture.rebuilt Fixture.changedWorld eq_refl Hne Hnew
              eq_refl) as [Hrun _].
  exact Hrun.
Defined.

Lemma AuthUser_short_code_witness :
  (String.length "12345" < 6)%nat
  /\ AuthUser "12345" "gate" Fixture.world
     = Ret (false, "Auth failed: too short code.") Fixture.world.
Proof.
  assert (String.length "12345" < 6)%nat as Hshort by (simpl; lia).
  split; [exact Hshort|].
  exact (AuthUser_short_code (Ty := Fixture.types) "12345" "gate"
           Fixture.world Hshort).
Defined.

Lemma FindUser_ignores_length_witness :
  validUsersLock (self Fixture.world) = false
  /\ validUsers (self Fixture.world) !! hashAuthCode "12345"
     = Some Fixture.zoe
  /\ hasMinimalCodeRequirements "12345" = false
  /\ FindUser "12345" Fixture.world = Ret (Some Fixture.zoe) Fixture.world
  /\ AuthUser "12345" "gate" Fixture.world
     = Ret (false, "Auth failed: too short code.") Fixture.world.
Proof.
  assert (validUsers (self Fixture.world) !! hashAuthCode "12345"
          = Some Fixture.zoe) as Hset by reflexivity.
  split_and!; [reflexivity | exact Hset | reflexivity | |];
    destruct (FindUser_ignores_length (Ty := Fixture.types) "12345"
                Fixture.zoe "gate" Fixture.world eq_refl Hset)
      as [Hfind Hauth].
  - exact Hfind.
  - apply Hauth. reflexivity.
Defined.

End Runs.

Section MoreRuns.
#[local] Existing Instance Fixture.types.
#[local] Existing Instance Fixture.collab.

Lemma NewFileBasedAuthenticator_entries_from_file_witness :
  NewFileBasedAuthenticator "users.csv" Fixture.changedWorld
  = Ret (Some Fixture.rebuilt) Fixture.changedWorld
  /\ exists records,
       openResult (files Fixture.changedWorld) = Some records
       /\ Some Fixture.gus ∈ records.
Proof.
  assert (NewFileBasedAuthenticator "users.csv" Fixture.changedWorld
          = Ret (Some Fixture.rebuilt) Fixture.changedWorld) as Hnew
    by reflexivity.
  split; [exact Hnew|].
  destruct (NewFileBasedAuthenticator_entries_from_file
              (Ty := Fixture.types) _ _ _ _ Hnew)
    as (records & Hopen & Hall).
  exists records. split; [exact Hopen|].
  apply (Hall (hashAuthCode "gus-card") Fixture.gus). reflexivity.
Defined.

Lemma NewFileBasedAuthenticator_fully_indexed_witness :
  NewFileBasedAuthenticator "users.csv" Fixture.changedWorld
  = Ret (Some Fixture.rebuilt) Fixture.changedWorld
  /\ fullyIndexed (validUsers Fixture.rebuilt).
Proof.
  assert (NewFileBasedAuthenticator "users.csv" Fixture.changedWorld
          = Ret (Some Fixture.rebuilt) Fixture.changedWorld) as Hnew
    by reflexivity.
  split; [exact Hnew|].
  destruct (NewFileBasedAuthenticator_fully_indexed
              (Ty := Fixture.types) _ _ _ _ Hnew) as [Hindexed _].
  exact Hindexed.
Defined.


Lemma fixture_users_indexed : fullyIndexed Fixture.users.
Proof.
  unfold Fixture.users.
  repeat (apply fullyIndexed_setCodes; [|reflexivity]).
  apply fullyIndexed_empty.
Defined.

Lemma fullyIndexed_preserved_witness :
  validUsersLock (self Fixture.world) = false
  /\ fullyIndexed (validUsers (self Fixture.world))
  /\ forall w',
       addUserSynchronized Fixture.newbie Fixture.world = Ret true w' ->
       fullyIndexed (validUsers (self w')).
Proof.
  split; [reflexivity|]. split; [exact fixture_users_indexed|].
  destruct (fullyIndexed_preserved (Ty := Fixture.types) Fixture.world
              eq_refl fixture_users_indexed) as (Hadd & _).
  intros w'. apply Hadd.
Defined.

Lemma levelHasAccess_nested_witness :
  levels_distinct
  /\ (granted (levelHasAccess LevelUser "upstairs" Fixture.world) = true ->
      granted (levelHasAccess LevelFulltimeUser "upstairs" Fixture.world)
      = true).
Proof.
  assert levels_distinct as Hdistinct by compute_done.
  split; [exact Hdistinct|].
  destruct (levelHasAccess_nested (Ty := Fixture.types) "upstairs"
              Fixture.world Hdistinct) as (_ & Hup & _).
  exact Hup.
Defined.

Lemma AuthUser_grants_iff_witness :
  validUsersLock (self Fixture.world) = false
  /\ exists w1,
       reloadIfChanged Fixture.world = Ret tt w1
       /\ forall reason w',
            AuthUser "sponsor1" "upstairs" Fixture.world
            = Ret (true, reason) w' -> reason = "".
Proof.
  split; [reflexivity|].
  destruct (AuthUser_grants_iff (Ty := Fixture.types) "sponsor1"
              "upstairs" Fixture.world eq_refl)
    as (w1 & Hreload & _ & Hmsg).
  exists w1. split; [exact Hreload | exact Hmsg].
Defined.

Lemma AuthUser_effects_witness :
  validUsersLock (self Fixture.world) = false
  /\ AuthUser "gus-card" "upstairs" Fixture.world
     = Ret (false, "") (ticked (ticked Fixture.world))
  /\ files (ticked (ticked Fixture.world)) = files Fixture.world
  /\ validUsersLock (self (ticked (ticked Fixture.world))) = false.
Proof.
  assert (AuthUser "gus-card" "upstairs" Fixture.world
          = Ret (false, "") (ticked (ticked Fixture.world))) as Hrun
    by reflexivity.
  split; [reflexivity|]. split; [exact Hrun|].
  destruct (AuthUser_effects (Ty := Fixture.types) "gus-card" "upstairs"
              Fixture.world (ticked (ticked Fixture.world)) (false, "")
              eq_refl Hrun) as (_ & Hfiles & Hfree & _).
  split; [exact Hfiles | exact Hfree].
Defined.

Lemma AuthUser_generic_denials_witness :
  (6 <= String.length "nobody-here")%nat
  /\ validUsersLock (self Fixture.world) = false
  /\ AuthUser "nobody-here" "gate" Fixture.world
     = Ret (false, "No user for code") Fixture.world.
Proof.
  assert (6 <= String.length "nobody-here")%nat as Hlong by (simpl; lia).
  split; [exact Hlong|]. split; [reflexivity|].
  destruct (AuthUser_generic_denials (Ty := Fixture.types) "nobody-here"
              "gate" Fixture.world Hlong eq_refl)
    as (w1 & Hreload & Hnone & _).
  assert (reloadIfChanged Fixture.world = Ret tt Fixture.world) as Hsame
    by reflexivity.
  rewrite Hsame in Hreload. injection Hreload as <-.
  apply Hnone. reflexivity.
Defined.

Lemma reloadIfChanged_idempotent_witness :
  validUsersLock (self Fixture.changedWorld) = false
  /\ reloadIfChanged Fixture.changedWorld
     = Ret tt (withSelf (swapped 2000 (validUsers Fixture.rebuilt)
                           (self Fixture.changedWorld))
                 Fixture.changedWorld)
  /\ reloadIfChanged
       (withSelf (swapped 2000 (validUsers Fixture.rebuilt)
                    (self Fixture.changedWorld)) Fixture.changedWorld)
     = Ret tt (withSelf (swapped 2000 (validUsers Fixture.rebuilt)
                           (self Fixture.changedWorld))
                 Fixture.changedWorld).
Proof.
  assert (reloadIfChanged Fixture.changedWorld
          = Ret tt (withSelf (swapped 2000 (validUsers Fixture.rebuilt)
                                (self Fixture.changedWorld))
                      Fixture.changedWorld)) as Hrun by reflexivity.
  split; [reflexivity|]. split; [exact Hrun|].
  exact (reloadIfChanged_idempotent (Ty := Fixture.types)
           Fixture.changedWorld _ eq_refl Hrun).
Defined.

Lemma reloadIfChanged_wholesale_witness :
  validUsersLock (self Fixture.changedWorld) = false
  /\ statResult (files Fixture.changedWorld) = Some 2000
  /\ fileTimestamp (self Fixture.changedWorld) <> 2000
  /\ userFilename (self Fixture.changedWorld) <> ""
  /\ openResult (files Fixture.changedWorld)
     = Some [Some Fixture.ada; None; Some Fixture.gus]
  /\ exists w1,
       reloadIfChanged Fixture.changedWorld = Ret tt w1
       /\ fileTimestamp (self w1) = 2000.
Proof.
  assert (fileTimestamp (self Fixture.changedWorld) <> 2000) as Hnew
    by compute_done.
  assert (userFilename (self Fixture.changedWorld) <> "") as Hname
    by compute_done.
  split_and!; [reflexivity | reflexivity | exact Hnew | exact Hname
               | reflexivity |].
  destruct (reloadIfChanged_wholesale (Ty := Fixture.types)
              Fixture.changedWorld 2000
              [Some Fixture.ada; None; Some Fixture.gus]
              eq_refl eq_refl Hnew Hname eq_refl)
    as (w1 & Hrun & Hstamp & _).
  exists w1. split; [exact Hrun | exact Hstamp].
Defined.

Lemma AddNewUser_keeps_entries_witness :
  validUsersLock (self Fixture.world) = false
  /\ AddNewUser "sponsor1" Fixture.newbie Fixture.world
     = Ret (true, "") Fixture.provisioned
  /\ validUsers (self Fixture.provisioned) !! hashAuthCode "zoe-card"
     = Some Fixture.zoe.
Proof.
  assert (AddNewUser "sponsor1" Fixture.newbie Fixture.world
          = Ret (true, "") Fixture.provisioned) as Hrun by reflexivity.
  split; [reflexivity|]. split; [exact Hrun|].
  destruct (AddNewUser_keeps_entries (Ty := Fixture.types) "sponsor1"
              Fixture.newbie Fixture.world Fixture.provisioned (true, "")
              eq_refl Hrun) as (Hkept & _).
  apply Hkept. reflexivity.
Defined.

Lemma AddNewUser_ok_no_reload_witness :
  validUsersLock (self Fixture.world) = false
  /\ AddNewUser "sponsor1" Fixture.newbie Fixture.world
     = Ret (true, "") Fixture.provisioned
  /\ reloadIfChanged Fixture.provisioned = Ret tt Fixture.provisioned.
Proof.
  assert (AddNewUser "sponsor1" Fixture.newbie Fixture.world
          = Ret (true, "") Fixture.provisioned) as Hrun by reflexivity.
  split; [reflexivity|]. split; [exact Hrun|].
  destruct (AddNewUser_ok_no_reload (Ty := Fixture.types) "sponsor1"
              Fixture.newbie Fixture.world Fixture.provisioned ""
              eq_refl Hrun) as (_ & _ & _ & Hreload).
  exact Hreload.
Defined.

Lemma AddNewUser_twice_witness :
  validUsersLock (self Fixture.world) = false
  /\ AddNewUser "sponsor1" Fixture.newbie Fixture.world
     = Ret (true, "") Fixture.provisioned
  /\ hashAuthCode "newcode9" ∈ Codes Fixture.newbie
  /\ (forall sponsor,
        validUsers (self Fixture.world) !! hashAuthCode "sponsor1"
        = Some sponsor ->
        InValidityPeriod sponsor
          (clock (self Fixture.provisioned)
             (clockTicks Fixture.provisioned)) = true)
  /\ exists w2,
       AddNewUser "sponsor1" Fixture.newbie Fixture.provisioned
       = Ret (false, "Duplicate codes while adding user") w2.
Proof.
  assert (AddNewUser "sponsor1" Fixture.newbie Fixture.world
          = Ret (true, "") Fixture.provisioned) as Hrun by reflexivity.
  assert (hashAuthCode "newcode9" ∈ Codes Fixture.newbie) as Hcode
    by compute_done.
  assert (forall sponsor,
            validUsers (self Fixture.world) !! hashAuthCode "sponsor1"
            = Some sponsor ->
            InValidityPeriod sponsor
              (clock (self Fixture.provisioned)
                 (clockTicks Fixture.provisioned)) = true) as Hstill.
  { intros sponsor Hsponsor.
    assert (validUsers (self Fixture.world) !! hashAuthCode "sponsor1"
            = Some Fixture.ada) as Hada by reflexivity.
    rewrite Hada in Hsponsor. injection Hsponsor as <-. reflexivity. }
  split_and!; [reflexivity | exact Hrun | exact Hcode | exact Hstill |].
  destruct (AddNewUser_twice (Ty := Fixture.types) "sponsor1"
              Fixture.newbie Fixture.newbie Fixture.world
              Fixture.provisioned "" (hashAuthCode "newcode9")
              eq_refl Hrun Hcode Hcode Hstill) as (w2 & Hreject & _).
  exists w2. exact Hreject.
Defined.

Lemma AddNewUser_without_codes_witness :
  validUsersLock (self Fixture.world) = false
  /\ validUsers (self Fixture.world) !! hashAuthCode "sponsor1"
     = Some Fixture.ada
  /\ Codes Fixture.codeless = []
  /\ exists w',
       AddNewUser "sponsor1" Fixture.codeless Fixture.world
       = Ret (true, "") w'
       /\ validUsers (self w') = validUsers (self Fixture.world).
Proof.
  assert (validUsers (self Fixture.world) !! hashAuthCode "sponsor1"
          = Some Fixture.ada) as Hada by reflexivity.
  split_and!; [reflexivity | exact Hada | reflexivity |].
  destruct (AddNewUser_without_codes (Ty := Fixture.types)
              (Collab := Fixture.collab) "sponsor1"
              Fixture.codeless Fixture.ada 1001 Fixture.world
              eq_refl Hada eq_refl eq_refl eq_refl eq_refl eq_refl)
    as (w' & Hrun & Htable & _).
  exists w'. split; [exact Hrun | exact Htable].
Defined.

Lemma FindUser_after_add_witness :
  validUsersLock (self Fixture.world) = false
  /\ FindUser "nobody-here" Fixture.world
     = Ret (validUsers (self Fixture.world) !! hashAuthCode "nobody-here")
         Fixture.world.
Proof.
  split; [reflexivity|].
  destruct (FindUser_after_add (Ty := Fixture.types) Fixture.newbie
              Fixture.world eq_refl) as [Hfind _].
  apply Hfind.
Defined.

End MoreRuns.
